(** * Verification of scripts/import-crm.py

    A shallow embedding of the CRM export to price book converter and the
    properties of its normalisation, categorisation and aggregation pipeline.

    Modelling conventions.
    - Python [str] values are modelled by [string]; the model covers ASCII
      text (code points below 128).  Case mapping and whitespace stripping
      treat every other character as a character that is neither a letter
      nor white space.
    - Python numbers are [pynum]: the [int] literal 0 returned by the
      cleaning helpers, or a binary64 [float] given by [spec_float].
      Comparisons follow Python: they compare exact values and every
      ordered comparison with NaN is false.
    - [row[i]] raises [IndexError] out of range; the functions that index
      rows live in the [result] monad.
    - A [dict] is a [gmap]; the only traversal of the category dictionary
      goes through [sorted], whose outcome does not depend on the order of
      traversal. *)

From Stdlib Require Import ZArith QArith Lqa String Ascii List Structures.OrdersEx.
From Stdlib Require Import Floats.SpecFloat Sorting.Sorted Sorting.Permutation.
From stdpp Require Import gmap strings list sorting.

Open Scope string_scope.

(** ** Python strings (ASCII fragment) *)

Module PyStr.

Definition code (c : ascii) : nat := nat_of_ascii c.

Definition in_range (lo hi : nat) (c : ascii) : bool :=
  (lo <=? code c)%nat && (code c <=? hi)%nat.

(** [str.isspace] on ASCII: TAB, LF, VT, FF, CR, FS, GS, RS, US, SPACE. *)
Definition isspace (c : ascii) : bool :=
  in_range 9 13 c || in_range 28 32 c.

Definition lower_char (c : ascii) : ascii :=
  if in_range 65 90 c then ascii_of_nat (code c + 32) else c.

Definition upper_char (c : ascii) : ascii :=
  if in_range 97 122 c then ascii_of_nat (code c - 32) else c.

Fixpoint map_chars (f : ascii -> ascii) (s : string) : string :=
  match s with
  | EmptyString => EmptyString
  | String c s' => String (f c) (map_chars f s')
  end.

(** [s.isascii()] *)
Fixpoint is_ascii (s : string) : bool :=
  match s with
  | EmptyString => true
  | String c s' => (code c <? 128)%nat && is_ascii s'
  end.

(** [s.lower()] and [s.upper()] *)
Definition lower (s : string) : string := map_chars lower_char s.
Definition upper (s : string) : string := map_chars upper_char s.

Fixpoint lstrip_by (sp : ascii -> bool) (s : string) : string :=
  match s with
  | EmptyString => EmptyString
  | String c s' => if sp c then lstrip_by sp s' else s
  end.

(** Drops the trailing characters satisfying [sp]. *)
Fixpoint rstrip_by (sp : ascii -> bool) (s : string) : string :=
  match s with
  | EmptyString => EmptyString
  | String c s' =>
      match rstrip_by sp s' with
      | EmptyString => if sp c then EmptyString else String c EmptyString
      | r => String c r
      end
  end.

Definition strip_by (sp : ascii -> bool) (s : string) : string :=
  rstrip_by sp (lstrip_by sp s).

(** [s.strip()] *)
Definition strip (s : string) : string := strip_by isspace s.

(** [s.startswith(p)], returning the remainder. *)
Fixpoint drop_prefix (p s : string) : option string :=
  match p, s with
  | EmptyString, _ => Some s
  | String a p', String b s' =>
      if Ascii.eqb a b then drop_prefix p' s' else None
  | String _ _, EmptyString => None
  end.

Definition startswith (p s : string) : bool :=
  match drop_prefix p s with Some _ => true | None => false end.

(** [needle in hay] *)
Fixpoint contains (needle hay : string) : bool :=
  startswith needle hay ||
  match hay with
  | EmptyString => false
  | String _ hay' => contains needle hay'
  end.

(** [s.replace(old, '')] for a non-empty [old]: occurrences are removed
    left to right without overlap; [skip] counts the characters of the
    occurrence being removed that are still to be dropped. *)
Fixpoint remove_all_from (old : string) (skip : nat) (s : string) : string :=
  match s with
  | EmptyString => EmptyString
  | String c s' =>
      match skip with
      | S k => remove_all_from old k s'
      | O =>
          if startswith old s
          then remove_all_from old (String.length old - 1) s'
          else String c (remove_all_from old 0 s')
      end
  end.

Definition remove_all (old s : string) : string := remove_all_from old 0 s.

(** [re.sub(r'[...]', '', s)] for a character class. *)
Fixpoint remove_chars (cls : ascii -> bool) (s : string) : string :=
  match s with
  | EmptyString => EmptyString
  | String c s' =>
      if cls c then remove_chars cls s' else String c (remove_chars cls s')
  end.

(** Python's [<] on [str]: lexicographic on code points. *)
Definition ltb (s t : string) : bool :=
  match String_as_OT.compare s t with
  | Lt => true
  | _ => false
  end.

End PyStr.

(** ** The fragment of Python regular expressions used by the script *)

Module Regex.

Inductive regex : Type :=
| Lit (s : string)            (* a literal run of characters *)
| DotStar                     (* [.*]: any run of characters but LF *)
| Seq (r1 r2 : regex)
| Alt (r1 r2 : regex)
| NotAhead (r : regex).       (* [(?!r)] *)

Definition newline : ascii := ascii_of_nat 10.

(** Every way to consume a run of non-newline characters, then [k]. *)
Fixpoint dotstar (s : string) (k : string -> bool) : bool :=
  k s ||
  match s with
  | EmptyString => false
  | String c s' => if Ascii.eqb c newline then false else dotstar s' k
  end.

(** [matches r s k]: some match of [r] at the start of [s] leaves a
    remainder accepted by [k] (backtracking search). *)
Fixpoint matches (r : regex) (s : string) (k : string -> bool) : bool :=
  match r with
  | Lit l => match PyStr.drop_prefix l s with Some s' => k s' | None => false end
  | DotStar => dotstar s k
  | Seq r1 r2 => matches r1 s (fun s' => matches r2 s' k)
  | Alt r1 r2 => matches r1 s k || matches r2 s k
  | NotAhead r' => negb (matches r' s (fun _ => true)) && k s
  end.

(** [re.search(r, s)] is not None: a match starts at some position. *)
Fixpoint search (r : regex) (s : string) : bool :=
  matches r s (fun _ => true) ||
  match s with
  | EmptyString => false
  | String _ s' => search r s'
  end.

End Regex.

Import Regex.

(** ** Categorizer *)

Definition CATEGORY_PATTERNS : list (regex * string) :=
  [ (Alt (Lit "PANEL") (Alt (Seq (Lit "SERVICE") (Seq DotStar (Lit "PANEL")))
                            (Lit "SUB PANEL")), "Panel Upgrades");
    (Lit "SURGE", "Surge Protection");
    (Alt (Lit "E CAR") (Alt (Lit "EV CIRCUIT") (Lit "EV CHARGER")), "EV Charging");
    (Lit "HOT TUB", "Hot Tub Circuits");
    (Seq (Lit "240V") (Seq DotStar (Seq (Lit "CKT")
       (NotAhead (Seq DotStar (Lit "EV"))))), "Heavy Duty Circuits");
    (Alt (Seq (Lit "OUTLET") (Seq DotStar (Lit "WP")))
         (Seq (Lit "WP") (Seq DotStar (Lit "OUTLET"))), "Exterior Outlets");
    (Alt (Lit "FLOOD") (Alt (Lit "SOFFIT") (Alt (Lit "COACH LT") (Lit "LANDSCAPE"))),
     "Exterior Lighting");
    (Alt (Lit "RCAN") (Alt (Lit "WAFER") (Lit "RECESSED")), "Recessed Lighting");
    (Lit "TAPE LT", "LED Tape Lighting");
    (Seq (Alt (Lit "OUTLET") (Alt (Lit "SWITCH") (Alt (Lit "DIMMER") (Lit "RECEPTACLE"))))
         (NotAhead (Seq DotStar (Lit "WP"))), "Outlets & Switches");
    (Alt (Lit "FIXTURE") (Alt (Lit "LIGHT BOX") (Alt (Lit "CHANDELIER") (Lit "PENDANT"))),
     "Interior Lighting");
    (Alt (Lit "FAN") (Lit "CEILING FAN"), "Ceiling Fans");
    (Alt (Lit "EXHAUST") (Alt (Lit "BATH FAN") (Lit "VENT FAN")), "Bathrooms");
    (Alt (Lit "GEN ") (Alt (Lit "GENERATOR") (Alt (Lit "18KW") (Alt (Lit "22KW")
       (Alt (Lit "24KW") (Lit "26KW"))))), "Home Generators");
    (Lit "INTERLOCK", "Portable Generator");
    (Alt (Lit "AIR CONDITIONER") (Alt (Lit "A/C") (Lit "AC CIRCUIT")), "HVAC Circuits");
    (Alt (Lit "SMOKE") (Alt (Lit "CARBON") (Lit "CO DETECTOR")), "Safety Devices");
    (Alt (Lit "GFCI") (Lit "GFI"), "GFCI Protection");
    (Lit "BREAKER", "Breakers") ].

(** The [for pattern, category in ...] loop with its early [return]. *)
Fixpoint first_category (rules : list (regex * string)) (name_upper : string)
  : string :=
  match rules with
  | [] => "Other Services"
  | (pattern, category) :: rest =>
      if search pattern name_upper then category
      else first_category rest name_upper
  end.

Definition categorize_package (name : string) : string :=
  let name_upper := PyStr.upper name in
  first_category CATEGORY_PATTERNS name_upper.

(** ** Python numbers *)

Module PyNum.

(** binary64 *)
Definition prec : Z := 53.
Definition emax : Z := 1024.

Inductive pynum : Type :=
| PyInt (z : Z)
| PyFloat (f : spec_float).

Definition inf : pynum := PyFloat (S754_infinity false).
Definition nan : pynum := PyFloat S754_nan.

(** Exact value of a number on the extended rational line. *)
Inductive xvalue : Type :=
| XNaN
| XNegInf
| XFin (q : Q)
| XPosInf.

Definition float_value (f : spec_float) : xvalue :=
  match f with
  | S754_nan => XNaN
  | S754_infinity s => if s then XNegInf else XPosInf
  | S754_zero _ => XFin 0
  | S754_finite s m e =>
      XFin (inject_Z (if s then Z.neg m else Z.pos m) * Qpower 2 e)
  end.

Definition value (n : pynum) : xvalue :=
  match n with
  | PyInt z => XFin (inject_Z z)
  | PyFloat f => float_value f
  end.

(** Python's three-way outcome of comparing two numbers; [None] when
    one of them is NaN. *)
Definition xcompare (a b : xvalue) : option comparison :=
  match a, b with
  | XNaN, _ | _, XNaN => None
  | XNegInf, XNegInf => Some Eq
  | XNegInf, _ => Some Lt
  | _, XNegInf => Some Gt
  | XPosInf, XPosInf => Some Eq
  | XPosInf, _ => Some Gt
  | _, XPosInf => Some Lt
  | XFin p, XFin q => Some (p ?= q)%Q
  end.

Definition compare (a b : pynum) : option comparison :=
  xcompare (value a) (value b).

(** [a < b], [a <= b], [a == b] *)
Definition ltb (a b : pynum) : bool :=
  match compare a b with Some Lt => true | _ => false end.
Definition leb (a b : pynum) : bool :=
  match compare a b with Some (Lt | Eq) => true | _ => false end.
Definition eqb (a b : pynum) : bool :=
  match compare a b with Some Eq => true | _ => false end.

Definition is_nan (a : pynum) : bool :=
  match value a with XNaN => true | _ => false end.

(** *** [float(s)] on an ASCII string *)

(** The C locale's [isspace], used by [float] to trim its argument. *)
Definition c_isspace (c : ascii) : bool :=
  PyStr.in_range 9 13 c || (PyStr.code c =? 32)%nat.

Definition is_digit (c : ascii) : bool := PyStr.in_range 48 57 c.
Definition digit_val (c : ascii) : Z := Z.of_nat (PyStr.code c - 48).

Definition underscore : ascii := "_"%char.

(** PEP 515: an underscore must sit between two digits.  Returns the
    text without its underscores, [prev] being the previous character. *)
Fixpoint strip_underscores (prev : option ascii) (s : string) : option string :=
  match s with
  | EmptyString =>
      match prev with
      | Some p => if Ascii.eqb p underscore then None else Some EmptyString
      | None => Some EmptyString
      end
  | String c s' =>
      let prev_digit := match prev with Some p => is_digit p | None => false end in
      let prev_us := match prev with Some p => Ascii.eqb p underscore | None => false end in
      if Ascii.eqb c underscore then
        if prev_digit then strip_underscores (Some c) s' else None
      else if prev_us && negb (is_digit c) then None
      else option_map (String c) (strip_underscores (Some c) s')
  end.

(** Reads a run of decimal digits: its value as if appended to [acc],
    the number of digits read, and the rest. *)
Fixpoint read_digits (acc : Z) (n : Z) (s : string) : Z * Z * string :=
  match s with
  | String c s' =>
      if is_digit c then read_digits (10 * acc + digit_val c) (n + 1) s'
      else (acc, n, s)
  | EmptyString => (acc, n, s)
  end.

Definition read_sign (s : string) : bool * string :=
  match s with
  | String "-"%char s' => (true, s')
  | String "+"%char s' => (false, s')
  | _ => (false, s)
  end.

(** The binary64 nearest to [m * 10^e] (ties to even), [m] positive. *)
Definition round_decimal (sign : bool) (m : positive) (e : Z) : spec_float :=
  match e with
  | Zneg n =>
      let '(q, e', l) :=
        SFdiv_core_binary prec emax (Z.pos m) 0 (Z.pow 10 (Z.pos n)) 0 in
      binary_round_aux prec emax sign q e' l
  | _ => binary_normalize prec emax (Z.pos m * Z.pow 10 e) 0 false
  end.

Definition signed (sign : bool) (f : spec_float) : spec_float :=
  if sign then SFopp f else f.

(** Optional exponent part, then the end of the text. *)
Definition read_exponent (s : string) : option Z :=
  match s with
  | EmptyString => Some 0%Z
  | String c s' =>
      if Ascii.eqb c "e"%char || Ascii.eqb c "E"%char then
        let '(neg, s1) := read_sign s' in
        match read_digits 0 0 s1 with
        | (x, n, EmptyString) =>
            if (0 <? n)%Z then Some (if neg then (- x)%Z else x) else None
        | _ => None
        end
      else None
  end.

(** [[sign] digits [. digits] [(e|E) [sign] digits]], with at least one
    digit in the mantissa. *)
Definition parse_decimal (s : string) : option spec_float :=
  let '(sign, s0) := read_sign s in
  let '(m1, n1, s1) := read_digits 0 0 s0 in
  let '(m, nfrac, s2) :=
    match s1 with
    | String "."%char t => let '(m2, n2, t') := read_digits m1 0 t in (m2, n2, t')
    | _ => (m1, 0%Z, s1)
    end in
  if (0 <? n1 + nfrac)%Z then
    match read_exponent s2 with
    | Some x =>
        Some match m with
             | Z.pos p => signed sign (round_decimal false p (x - nfrac))
             | _ => S754_zero sign
             end
    | None => None
    end
  else None.

(** [[sign] (inf | infinity | nan)], in any letter case. *)
Definition parse_inf_or_nan (s : string) : option spec_float :=
  let '(sign, s0) := read_sign s in
  let w := PyStr.lower s0 in
  if String.eqb w "inf" || String.eqb w "infinity" then Some (S754_infinity sign)
  else if String.eqb w "nan" then Some S754_nan
  else None.

(** [float(s)]: [None] stands for [ValueError]. *)
Definition float (s : string) : option pynum :=
  let t := PyStr.strip_by c_isspace s in
  match (if PyStr.contains "_" t then strip_underscores None t else Some t) with
  | None => None
  | Some u =>
      match parse_inf_or_nan u with
      | Some f => Some (PyFloat f)
      | None => option_map PyFloat (parse_decimal u)
      end
  end.

End PyNum.

Import PyNum.

(** ** Exceptions *)

Inductive exn : Type :=
| IndexError
| ValueError (msg : string)
| ParseError
| OSError (msg : string)
| SystemExit (status : Z).

Inductive result (A : Type) : Type :=
| Ok (a : A)
| Raise (e : exn).

Arguments Ok {A} a.
Arguments Raise {A} e.

Definition bind {A B : Type} (r : result A) (k : A -> result B) : result B :=
  match r with
  | Ok a => k a
  | Raise e => Raise e
  end.

Notation "x ←! r ; k" := (bind r (fun x => k))
  (at level 20, r at level 100, k at level 200, right associativity,
   format "'[v' x  ←!  r ; '/' k ']'").

(** [row[i]] *)
Definition getitem (row : list string) (i : nat) : result string :=
  match row !! i with
  | Some cell => Ok cell
  | None => Raise IndexError
  end.

(** ** Field cleaning *)

(** What the cleaning helpers receive: the text of a cell, or the [int]
    literal 0 passed when the column is not mapped. *)
Inductive raw_number : Type :=
| Text (s : string)
| IntZero.

Definition is_comma_or_dollar (c : ascii) : bool :=
  Ascii.eqb c ","%char || Ascii.eqb c "$"%char.

Definition clean_price (price_str : raw_number) : pynum :=
  match price_str with
  | IntZero => PyInt 0
  | Text "" => PyInt 0
  | Text s =>
      let cleaned := PyStr.remove_chars is_comma_or_dollar s in
      match float cleaned with
      | Some x => x
      | None => PyInt 0
      end
  end.

Definition clean_hours (hours_str : raw_number) : pynum :=
  match hours_str with
  | IntZero => PyInt 0
  | Text "" => PyInt 0
  | Text s =>
      match float s with
      | Some x => x
      | None => PyInt 0
      end
  end.

(** ** Header Resolver *)

(** The [if]/[elif] chain applied to one lowercased header cell. *)
Definition header_key (h_lower : string) : option string :=
  if PyStr.contains "internal id" h_lower then Some "id"
  else if String.eqb h_lower "name" then Some "name"
  else if PyStr.contains "sales price" h_lower then Some "price"
  else if PyStr.contains "labor hours" h_lower then Some "hours"
  else if PyStr.contains "labor cost" h_lower then Some "labor_cost"
  else if PyStr.contains "description" h_lower then Some "description"
  else if PyStr.contains "show on mobile" h_lower then Some "show_mobile"
  else None.

(** The [for i, h in enumerate(header)] loop, from index [i] on. *)
Fixpoint col_map_loop (i : nat) (header : list string)
  (col_map : gmap string nat) : gmap string nat :=
  match header with
  | [] => col_map
  | h :: rest =>
      let h_lower := PyStr.lower h in
      col_map_loop (S i) rest
        (match header_key h_lower with
         | Some key => <[key := i]> col_map
         | None => col_map
         end)
  end.

Definition build_col_map (row0 : list string) : gmap string nat :=
  let header := map PyStr.strip row0 in
  col_map_loop 0 header ∅.

(** [max(col_map.values(), default=0)] *)
Definition max_index (col_map : gmap string nat) : nat :=
  max_list (map_to_list col_map).*2.

(** ** Record Normalizer *)

Record package : Type := {
  pkg_id : string;
  pkg_name : string;
  pkg_displayName : string;
  pkg_price : pynum;
  pkg_laborHours : pynum;
  pkg_description : string;
  pkg_category : string;
  pkg_tier : option string;
  pkg_upsellTo : list string
}.

(** [wrap(row[col_map.get(key, dflt)]) if col_map.get(key) is not None
    else otherwise] *)
Definition read_field {A : Type} (col_map : gmap string nat) (key : string)
  (dflt : nat) (row : list string) (wrap : string -> A) (otherwise : A)
  : result A :=
  match col_map !! key with
  | Some _ =>
      cell ←! getitem row (default dflt (col_map !! key));
      Ok (wrap cell)
  | None => Ok otherwise
  end.

(** [re.sub(r'^(AMSFL_|GENFL_)', '', name)] *)
Definition strip_vendor_prefix (name : string) : string :=
  match PyStr.drop_prefix "AMSFL_" name with
  | Some rest => rest
  | None =>
      match PyStr.drop_prefix "GENFL_" name with
      | Some rest => rest
      | None => name
      end
  end.

Definition display_name_of (name : string) : string :=
  let display_name := PyStr.strip (strip_vendor_prefix name) in
  PyStr.strip (PyStr.remove_all "INSTALL " display_name).

Definition is_empty (s : string) : bool :=
  match s with EmptyString => true | _ => false end.

(** One iteration of the loop over data rows: [Ok None] when the row is
    skipped by a [continue], [Ok (Some p)] when [p] is appended. *)
Definition process_row (col_map : gmap string nat) (row : list string)
  : result (option package) :=
  if (length row <? max_index col_map + 1)%nat then Ok None else
  name ←! read_field col_map "name" 1 row id "";
  if is_empty name || is_empty (PyStr.strip name) then Ok None else
  show_mobile ←! read_field col_map "show_mobile" 6 row id "Yes";
  if negb (is_empty show_mobile) && PyStr.contains "no" (PyStr.lower show_mobile)
  then Ok None else
  price_arg ←! read_field col_map "price" 5 row Text IntZero;
  let price := clean_price price_arg in
  if PyNum.leb price (PyInt 0) then Ok None else
  let display_name := display_name_of name in
  ident ←! read_field col_map "id" 0 row id "";
  hours_arg ←! read_field col_map "hours" 3 row Text IntZero;
  descr ←! read_field col_map "description" 8 row id "";
  Ok (Some {| pkg_id := ident;
              pkg_name := name;
              pkg_displayName := display_name;
              pkg_price := price;
              pkg_laborHours := clean_hours hours_arg;
              pkg_description := descr;
              pkg_category := categorize_package name;
              pkg_tier := None;
              pkg_upsellTo := [] |}).

Fixpoint process_rows (col_map : gmap string nat) (data : list (list string))
  : result (list package) :=
  match data with
  | [] => Ok []
  | row :: rest =>
      r ←! process_row col_map row;
      packages ←! process_rows col_map rest;
      Ok (match r with Some p => p :: packages | None => packages end)
  end.

Definition process_crm_data (rows : list (list string)) : result (list package) :=
  match rows with
  | [] => Ok []
  | row0 :: data => process_rows (build_col_map row0) data
  end.

(** ** Sorting

    [list.sort] and [sorted] are stable and decide by [<] alone.  They are
    modelled by insertion from the left, each element going behind the
    elements it is not smaller than; on keys that [<] orders totally this
    is the outcome of every stable sort.  With a NaN among the keys [<]
    is no such order and the outcome of [list.sort] depends on its
    algorithm: the model is then exact for lists of at most one element
    only, and nothing is stated here about longer ones. *)

Section PySort.
Context {A : Type} (lt : A -> A -> bool).

Fixpoint insert_sorted (x : A) (l : list A) : list A :=
  match l with
  | [] => [x]
  | y :: l' => if lt x y then x :: y :: l' else y :: insert_sorted x l'
  end.

Definition py_sort (l : list A) : list A :=
  fold_left (fun acc x => insert_sorted x acc) l [].
End PySort.

(** ** Aggregator *)

Record cat_data : Type := {
  cd_packages : list package;
  cd_startingAt : pynum
}.

(** The [defaultdict] factory. *)
Definition default_cat_data : cat_data :=
  {| cd_packages := []; cd_startingAt := PyNum.inf |}.

(** Body of the [for pkg in packages] loop. *)
Definition add_package (categories : gmap string cat_data) (pkg : package)
  : gmap string cat_data :=
  let cat := pkg_category pkg in
  let data := default default_cat_data (categories !! cat) in
  let packages' := (cd_packages data ++ [pkg])%list in
  let startingAt' :=
    if PyNum.ltb (pkg_price pkg) (cd_startingAt data)
    then pkg_price pkg else cd_startingAt data in
  <[cat := {| cd_packages := packages'; cd_startingAt := startingAt' |}]> categories.

Definition group_packages (packages : list package) : gmap string cat_data :=
  fold_left add_package packages ∅.

Definition icons : list (string * string) :=
  [ ("Panel Upgrades", "zap");
    ("Surge Protection", "shield");
    ("EV Charging", "battery-charging");
    ("Hot Tub Circuits", "droplet");
    ("Heavy Duty Circuits", "plug");
    ("Exterior Outlets", "sun");
    ("Exterior Lighting", "sun");
    ("Recessed Lighting", "circle");
    ("LED Tape Lighting", "minus");
    ("Outlets & Switches", "toggle-right");
    ("Interior Lighting", "lamp");
    ("Ceiling Fans", "wind");
    ("Bathrooms", "droplet");
    ("Home Generators", "power");
    ("Portable Generator", "battery");
    ("HVAC Circuits", "thermometer");
    ("Safety Devices", "alert-circle");
    ("GFCI Protection", "shield");
    ("Breakers", "square") ].

(** [icons.get(category, 'package')]; the keys of the literal are distinct. *)
Fixpoint dict_get (d : list (string * string)) (key dflt : string) : string :=
  match d with
  | [] => dflt
  | (k, v) :: d' => if String.eqb k key then v else dict_get d' key dflt
  end.

Definition get_category_icon (category : string) : string :=
  dict_get icons category "package".

Record category_group : Type := {
  cg_name : string;
  cg_startingAt : pynum;
  cg_packages : list package;
  cg_icon : string
}.

Definition price_lt (a b : package) : bool :=
  PyNum.ltb (pkg_price a) (pkg_price b).

(** The keys of a dictionary are distinct, so comparing two of its items
    as tuples is decided by their names. *)
Definition item_lt (a b : string * cat_data) : bool :=
  PyStr.ltb a.1 b.1.

(** Body of the loop over the sorted items. *)
Definition make_group (item : string * cat_data) : category_group :=
  let '(name, data) := item in
  {| cg_name := name;
     cg_startingAt := cd_startingAt data;
     cg_packages := py_sort price_lt (cd_packages data);
     cg_icon := get_category_icon name |}.

(** The part of [organize_by_category] after the grouping loop, for the
    items of the dictionary enumerated in the order [items]. *)
Definition groups_of_items (items : list (string * cat_data)) : list category_group :=
  map make_group (py_sort item_lt items).

Definition organize_by_category (packages : list package) : list category_group :=
  groups_of_items (map_to_list (group_packages packages)).

(** ** Document Builder *)

Record document : Type := {
  doc_version : string;
  doc_lastUpdated : option string;
  doc_categories : list category_group
}.

Definition build_document (categories : list category_group) : document :=
  {| doc_version := "1.0"; doc_lastUpdated := None; doc_categories := categories |}.

(** ** Row Source Adapter: spreadsheet markup *)

(** An [xml.etree] element: tag, text, children. *)
#[warnings="-register-all"] Inductive element : Type :=
| Element (tag : string) (text : option string) (children : list element).

Definition tag (e : element) : string :=
  match e with Element t _ _ => t end.
Definition text (e : element) : option string :=
  match e with Element _ t _ => t end.
Definition children (e : element) : list element :=
  match e with Element _ _ cs => cs end.

(** [e.iter()]: the element and its descendants in document order. *)
Fixpoint iter (e : element) : list element :=
  match e with
  | Element _ _ cs => e :: flat_map iter cs
  end.

Fixpoint find_first {A : Type} (p : A -> bool) (l : list A) : option A :=
  match l with
  | [] => None
  | x :: l' => if p x then Some x else find_first p l'
  end.

Definition ss_ns : string := "urn:schemas-microsoft-com:office:spreadsheet".
Definition qualified (ns local : string) : string := "{" ++ ns ++ "}" ++ local.

(** [e.find('.//ss:Local', ns)]: first proper descendant with that tag. *)
Definition find_descendant (local : string) (e : element) : option element :=
  find_first (fun d => String.eqb (tag d) (qualified ss_ns local))
             (flat_map iter (children e)).

(** First element of [root.iter()] whose tag contains [word]. *)
Definition scan_for (word : string) (root : element) : option element :=
  find_first (fun e => PyStr.contains word (tag e)) (iter root).

Definition cell_text (cell : element) : string :=
  match find_first (fun d => PyStr.contains "Data" (tag d)) (iter cell) with
  | Some d => default "" (text d)
  | None => ""
  end.

Definition row_cells (row : element) : list string :=
  map cell_text (filter (fun c => PyStr.contains "Cell" (tag c) = true) (iter row)).

Definition table_rows (table : element) : list (list string) :=
  filter (fun cells => cells ≠ [])
    (map row_cells
       (filter (fun r => PyStr.contains "Row" (tag r) = true) (iter table))).

Definition parse_xml_spreadsheet (root : element) : result (list (list string)) :=
  let worksheet :=
    match find_descendant "Worksheet" root with
    | Some w => Some w
    | None => scan_for "Worksheet" root
    end in
  let table :=
    match worksheet with
    | Some w => find_descendant "Table" w
    | None => None
    end in
  let table :=
    match table with
    | Some t => Some t
    | None => scan_for "Table" root
    end in
  match table with
  | None => Raise (ValueError "Could not find Table element in XML")
  | Some t => Ok (table_rows t)
  end.

(** ** Entry point *)

(** What can go wrong while the output is written (lines 295 to 299):
    the [mkdir] of the data directory raises, the [open] of the file for
    writing raises, or [json.dump] is interrupted after the file was
    opened and thereby truncated. *)
Inductive write_fault : Type :=
| MkdirFails (e : exn)
| OpenFails (e : exn)
| DumpFails (e : exn).

(** The file system as [main] sees it: which paths exist, the first 100
    bytes of a file, what the two readers make of a file, and whether and
    where writing the output fails. *)
Record files : Type := {
  file_exists : string -> bool;
  file_start : string -> string;
  et_parse : string -> result element;
  csv_reader : string -> result (list (list string));
  write_fails : option write_fault
}.

(** What data/pricebook.json holds once written to: the whole JSON text
    of a document, or only a part of it. *)
Inductive output_file : Type :=
| Complete (d : document)
| Truncated (d : document).

Definition search_paths : list string :=
  [ "../AMSItemGroupCatalogwPriceResults547.xls";
    "../crm_export.csv";
    "AMSItemGroupCatalogwPriceResults547.xls";
    "crm_export.csv" ].

Definition is_spreadsheet_markup (start : string) : bool :=
  PyStr.contains "<?xml" start || PyStr.contains "<Workbook" start.

Definition read_rows (fs : files) (filepath : string) : result (list (list string)) :=
  if is_spreadsheet_markup (file_start fs filepath) then
    root ←! et_parse fs filepath;
    parse_xml_spreadsheet root
  else csv_reader fs filepath.

(** The transformation between reading the rows and writing the file. *)
Definition pipeline (rows : list (list string)) : result document :=
  packages ←! process_crm_data rows;
  Ok (build_document (organize_by_category packages)).

(** The path [main] works on: the command line argument if any, else
    the first default candidate that exists; [sys.exit(1)] otherwise. *)
Definition choose_path (fs : files) (argv1 : option string) : result string :=
  filepath ←!
    match argv1 with
    | None =>
        match find_first (file_exists fs) search_paths with
        | Some p => Ok p
        | None => Raise (SystemExit 1)
        end
    | Some p => Ok p
    end;
  if negb (file_exists fs filepath) then Raise (SystemExit 1) else Ok filepath.

(** Lines 295 to 299: [mkdir], [open(output_path, 'w')], [json.dump].
    A failure of [mkdir] or [open] leaves the file as it was; once the
    file is open its former content is gone. *)
Definition write_output (fs : files) (output : document)
  (out : option output_file) : result unit * option output_file :=
  match write_fails fs with
  | None => (Ok tt, Some (Complete output))
  | Some (MkdirFails e) => (Raise e, out)
  | Some (OpenFails e) => (Raise e, out)
  | Some (DumpFails e) => (Raise e, Some (Truncated output))
  end.

(** [main], console messages left out.  [argv1] is the command line
    argument if any; [out] is the content of data/pricebook.json, [None]
    while the file has not been written.  Returns the outcome and the
    content of the output file afterwards. *)
Definition main (fs : files) (argv1 : option string) (out : option output_file)
  : result unit * option output_file :=
  match (filepath ←! choose_path fs argv1;
         rows ←! read_rows fs filepath;
         pipeline rows) with
  | Raise e => (Raise e, out)
  | Ok output => write_output fs output out
  end.

(** Induction on elements, with the hypothesis for every child. *)
Fixpoint element_children_ind (P : element → Prop)
  (H : ∀ t x cs, Forall P cs → P (Element t x cs)) (e : element) : P e :=
  match e with
  | Element t x cs =>
      H t x cs
        ((fix all (l : list element) : Forall P l :=
            match l return Forall P l with
            | [] => @List.Forall_nil _ P
            | c :: l' =>
                @List.Forall_cons _ P c l' (element_children_ind P H c) (all l')
            end) cs)
  end.

(** ** Vocabulary of the statements *)

(** The cell a field is read from: the cell of the column the header
    resolved for [key], if there is one and the row reaches it. *)
Definition resolved (col_map : gmap string nat) (key : string)
  (row : list string) : option string :=
  match col_map !! key with
  | Some i => row !! i
  | None => None
  end.

(** The values [process_row] works with. *)
Definition resolved_name (col_map : gmap string nat) (row : list string) : string :=
  default "" (resolved col_map "name" row).
Definition resolved_show_mobile (col_map : gmap string nat) (row : list string)
  : string :=
  default "Yes" (resolved col_map "show_mobile" row).
Definition resolved_price (col_map : gmap string nat) (row : list string)
  : raw_number :=
  from_option Text IntZero (resolved col_map "price" row).
Definition resolved_hours (col_map : gmap string nat) (row : list string)
  : raw_number :=
  from_option Text IntZero (resolved col_map "hours" row).

(** Resolution with a positional fallback: the cell at the header-mapped
    index, else at the fixed default index [dflt]. *)
Definition positional (col_map : gmap string nat) (key : string) (dflt : nat)
  (row : list string) : option string :=
  row !! default dflt (col_map !! key).

(** The key the [if]/[elif] chain assigns to column [j] of the header. *)
Definition column_key (row0 : list string) (j : nat) : option string :=
  match map PyStr.strip row0 !! j with
  | Some h => header_key (PyStr.lower h)
  | None => None
  end.

(** The records a data row contributes: none or one. *)
Definition emitted (col_map : gmap string nat) (row : list string)
  : option package :=
  match process_row col_map row with
  | Ok r => r
  | Raise _ => None
  end.

(** A run of the transformation on [rows] whose traversal of the category
    dictionary enumerates its items in the order [items]. *)
Definition run (rows : list (list string)) (items : list (string * cat_data))
  (doc : document) : Prop :=
  ∃ packages,
    process_crm_data rows = Ok packages ∧
    items ≡ₚ map_to_list (group_packages packages) ∧
    doc = build_document (groups_of_items items).

(** Prices in ascending order. *)
Definition price_le (a b : package) : Prop :=
  PyNum.leb (pkg_price a) (pkg_price b) = true.

(** The packages of a sequence that belong to category [c] or whose price
    equals [v], in their order. *)
Definition in_category (c : string) (packages : list package) : list package :=
  filter (fun p => pkg_category p = c) packages.
Definition priced (v : pynum) (packages : list package) : list package :=
  filter (fun p => PyNum.eqb (pkg_price p) v = true) packages.

(** [a] is not placed after [b] by a sort deciding with [lt]. *)
Definition not_after {A : Type} (lt : A → A → bool) : relation A :=
  fun a b => lt b a = false.

(** The running minimum kept by the grouping loop, from [init] on. *)
Definition running_min (init : pynum) (packages : list package) : pynum :=
  fold_left (fun s p => if PyNum.ltb (pkg_price p) s then pkg_price p else s)
            packages init.

Definition has_price (p : package) : Prop := is_nan (pkg_price p) = false.

(** A small export and what the stages make of it. *)
Definition sample_rows : list (list string) :=
  [ ["Name"; "Sales Price"]; ["SURGE"; "50"]; ["PANEL"; "100"] ].

Definition sample_packages : list package :=
  Eval vm_compute in
    match process_crm_data sample_rows with
    | Ok packages => packages
    | Raise _ => []
    end.

Definition sample_items : list (string * cat_data) :=
  Eval vm_compute in map_to_list (group_packages sample_packages).

(** A plain SpreadsheetML document holding [rows]: a workbook with one
    worksheet, its table, one row element per row and one cell element
    with a data element per cell. *)
Definition xml_cell (c : string) : element :=
  Element (qualified ss_ns "Cell") None
    [Element (qualified ss_ns "Data") (Some c) []].
Definition xml_row (cells : list string) : element :=
  Element (qualified ss_ns "Row") None (map xml_cell cells).
Definition xml_table (rows : list (list string)) : element :=
  Element (qualified ss_ns "Table") None (map xml_row rows).
Definition xml_workbook (rows : list (list string)) : element :=
  Element (qualified ss_ns "Workbook") None
    [Element (qualified ss_ns "Worksheet") None [xml_table rows]].

(** * Properties *)

Open Scope list_scope.

(** ** Categorizer *)

Lemma first_category_first_match rules name_upper i pattern category :
  rules !! i = Some (pattern, category) →
  search pattern name_upper = true →
  (∀ j r, (j < i)%nat → rules !! j = Some r → search r.1 name_upper = false) →
  first_category rules name_upper = category.
Proof.
  revert i. induction rules as [|[p c] rules IH]; intros i Hi Hm Hbefore.
  - by rewrite lookup_nil in Hi.
  - destruct i as [|i]; simpl in *.
    + injection Hi as -> ->. by rewrite Hm.
    + assert (search p name_upper = false) as ->
        by (apply (Hbefore 0%nat (p, c)); [lia|done]).
      apply (IH i); [done..|].
      intros j r Hj Hr. apply (Hbefore (S j)); [lia|done].
Qed.

Lemma first_category_no_match rules name_upper :
  (∀ r, r ∈ rules → search r.1 name_upper = false) →
  first_category rules name_upper = "Other Services".
Proof.
  induction rules as [|[p c] rules IH]; intros Hnone; [done|].
  simpl. assert (search p name_upper = false) as ->
    by (apply (Hnone (p, c)); by left).
  apply IH. intros r Hr. apply Hnone. by right.
Qed.

(** C4: the category of a name is the category of the first rule of the
    ordered table whose pattern is found in the uppercased name, and
    "Other Services" when no pattern is found; it is a function of the
    uppercased name alone. *)
Theorem categorize_package_first_match (name : string) :
  (∀ i pattern category,
      CATEGORY_PATTERNS !! i = Some (pattern, category) →
      search pattern (PyStr.upper name) = true →
      (∀ j r, (j < i)%nat → CATEGORY_PATTERNS !! j = Some r →
              search r.1 (PyStr.upper name) = false) →
      categorize_package name = category) ∧
  ((∀ r, r ∈ CATEGORY_PATTERNS → search r.1 (PyStr.upper name) = false) →
   categorize_package name = "Other Services") ∧
  (∀ name', PyStr.upper name' = PyStr.upper name →
            categorize_package name' = categorize_package name).
Proof.
  split; [|split].
  - intros i pattern category. apply first_category_first_match.
  - apply first_category_no_match.
  - intros name' Heq. unfold categorize_package. by rewrite Heq.
Qed.

Lemma categorize_package_first_match_witness :
  categorize_package "wp outlet exterior" = "Exterior Outlets".
Proof.
  apply (proj1 (categorize_package_first_match "wp outlet exterior") 5%nat
           (Alt (Seq (Lit "OUTLET") (Seq DotStar (Lit "WP")))
                (Seq (Lit "WP") (Seq DotStar (Lit "OUTLET"))))).
  - reflexivity.
  - reflexivity.
  - intros j r Hj Hr.
    do 5 (destruct j as [|j]; [injection Hr as <-; reflexivity|]). lia.
Defined.

(** C5: the name "BATH FAN INSTALL" is assigned "Ceiling Fans", not
    "Bathrooms": rule 12 finds "FAN" before rule 13 is tried. *)
Theorem bath_fan_is_ceiling_fans :
  categorize_package "BATH FAN INSTALL" = "Ceiling Fans" ∧
  categorize_package "BATH FAN INSTALL" ≠ "Bathrooms" ∧
  categorize_package "VENT FAN" = "Ceiling Fans".
Proof. vm_compute. repeat split; discriminate. Qed.

(** ** Icons *)

Lemma make_group_icon item :
  cg_name (make_group item) = item.1 ∧
  cg_icon (make_group item) = get_category_icon item.1.
Proof. by destruct item. Qed.

Lemma organize_group_icon packages g :
  g ∈ organize_by_category packages →
  cg_icon g = get_category_icon (cg_name g).
Proof.
  unfold organize_by_category, groups_of_items.
  intros (item & -> & _)%list_elem_of_fmap.
  destruct (make_group_icon item) as [-> ->]. done.
Qed.

(** C10: the icon table has no entry for "Other Services", so a group of
    that name gets the default icon "package"; the Categorizer's fallback
    produces such groups. *)
Theorem other_services_icon_is_default :
  ("Other Services" ∉ icons.*1) ∧
  get_category_icon "Other Services" = "package" ∧
  categorize_package "MISC LABOR" = "Other Services" ∧
  (∀ packages g,
      g ∈ organize_by_category packages →
      cg_name g = "Other Services" → cg_icon g = "package") ∧
  (∃ d g,
      pipeline [["Name"; "Sales Price"]; ["MISC LABOR"; "95"]] = Ok d ∧
      g ∈ doc_categories d ∧
      cg_name g = "Other Services" ∧ cg_icon g = "package").
Proof.
  split; [|split; [|split; [|split]]].
  - intros H. repeat (apply elem_of_cons in H as [H|H]; [discriminate H|]).
    by apply elem_of_nil in H.
  - reflexivity.
  - reflexivity.
  - intros packages g Hg Hname.
    rewrite (organize_group_icon _ _ Hg), Hname. reflexivity.
  - eexists _, _. split; [vm_compute; reflexivity|].
    split; [left|]. split; reflexivity.
Qed.

(** ** Header Resolver *)

(** What the loop leaves under [key]: the index of the last cell assigned
    to [key], or the previous binding when no cell is. *)
Lemma col_map_loop_lookup header i col_map key j :
  col_map_loop i header col_map !! key = Some j ↔
    (∃ k h, j = (i + k)%nat ∧ header !! k = Some h ∧
            header_key (PyStr.lower h) = Some key ∧
            ∀ k' h', (k < k')%nat → header !! k' = Some h' →
                     header_key (PyStr.lower h') ≠ Some key) ∨
    (col_map !! key = Some j ∧
     ∀ k h, header !! k = Some h → header_key (PyStr.lower h) ≠ Some key).
Proof.
  revert i col_map. induction header as [|h0 header IH]; intros i col_map; simpl.
  - split.
    + intros H. right. split; [done|]. intros k h Hk. by rewrite lookup_nil in Hk.
    + intros [(k & h & _ & Hk & _)|[H _]]; [by rewrite lookup_nil in Hk|done].
  - rewrite IH. clear IH. split.
    + intros [(k & h & -> & Hk & Hkey & Hlast)|[Hm Hnone]].
      * left. exists (S k), h. repeat split; [lia|done..|].
        intros [|k'] h' Hlt Hk'; [lia|]. apply (Hlast k' h'); [lia|done].
      * destruct (header_key (PyStr.lower h0)) as [key0|] eqn:Hk0.
        -- destruct (decide (key0 = key)) as [->|Hne].
           ++ rewrite lookup_insert_eq in Hm. injection Hm as <-.
              left. exists 0%nat, h0. repeat split; [lia|done..|].
              intros [|k'] h' Hlt Hk'; [lia|]. by apply (Hnone k' h').
           ++ rewrite lookup_insert_ne in Hm by done.
              right. split; [done|]. intros [|k] h Hk; simpl in Hk.
              ** injection Hk as <-. rewrite Hk0. congruence.
              ** by apply (Hnone k h).
        -- right. split; [done|]. intros [|k] h Hk; simpl in Hk.
           ++ injection Hk as <-. by rewrite Hk0.
           ++ by apply (Hnone k h).
    + intros [(k & h & -> & Hk & Hkey & Hlast)|[Hm Hnone]].
      * destruct k as [|k]; simpl in Hk.
        -- injection Hk as ->. right. rewrite Hkey. rewrite lookup_insert_eq.
           split; [f_equal; lia|]. intros k h' Hk.
           apply (Hlast (S k) h'); [lia|done].
        -- left. exists k, h. repeat split; [lia|done..|].
           intros k' h' Hlt Hk'. apply (Hlast (S k') h'); [lia|done].
      * right. split.
        -- destruct (header_key (PyStr.lower h0)) as [key0|] eqn:Hk0; [|done].
           rewrite lookup_insert_ne; [done|]. intros ->.
           by apply (Hnone 0%nat h0).
        -- intros k h Hk. by apply (Hnone (S k) h).
Qed.

(** C3 (as the code has it): a key is bound to the last header column
    that the [if]/[elif] chain assigns to it; a later column overwrites an
    earlier one.  Precisely, [key] is bound to [j] exactly when column [j]
    is assigned [key] and no column after [j] is. *)
Theorem header_last_match_wins (row0 : list string) (key : string) (j : nat) :
  build_col_map row0 !! key = Some j ↔
    column_key row0 j = Some key ∧
    ∀ j', (j < j')%nat → column_key row0 j' ≠ Some key.
Proof.
  unfold build_col_map, column_key. rewrite col_map_loop_lookup. split.
  - intros [(k & h & -> & Hk & Hkey & Hlast)|[Hm _]];
      [|by rewrite lookup_empty in Hm].
    simpl. rewrite Hk. split; [done|].
    intros j' Hlt. destruct (map PyStr.strip row0 !! j') as [h'|] eqn:Hj'; [|done].
    by apply (Hlast j' h').
  - intros [Hj Hlast]. left.
    destruct (map PyStr.strip row0 !! j) as [h|] eqn:Hh; [|done].
    exists j, h. repeat split; [done..|].
    intros k' h' Hlt Hk'. specialize (Hlast k' Hlt). by rewrite Hk' in Hlast.
Qed.

Lemma header_last_match_wins_witness :
  build_col_map ["Name"; "Sales Price"; " NAME "] !! "name" = Some 2%nat.
Proof.
  apply (proj2 (header_last_match_wins ["Name"; "Sales Price"; " NAME "] "name" 2)).
  split; [reflexivity|].
  intros j' Hlt. do 3 (destruct j' as [|j']; [lia|]). discriminate.
Defined.

(** C3 as stated fails: both columns of this header read "Name", and the
    key is bound to the later one. *)
Lemma header_first_match_does_not_win :
  column_key ["Name"; "Name"] 0 = Some "name" ∧
  column_key ["Name"; "Name"] 1 = Some "name" ∧
  build_col_map ["Name"; "Name"] !! "name" = Some 1%nat ∧
  build_col_map ["Name"; "Name"] !! "name" ≠ Some 0%nat.
Proof. vm_compute. repeat split; discriminate. Qed.

(** ** Order of Python numbers *)

Lemma xcompare_antisym a b :
  xcompare b a = option_map CompOpp (xcompare a b).
Proof.
  destruct a, b; simpl; try reflexivity.
  by rewrite <- Qcompare_antisym.
Qed.

Lemma compare_antisym a b :
  PyNum.compare b a = option_map CompOpp (PyNum.compare a b).
Proof. apply xcompare_antisym. Qed.

Lemma compare_is_Some a b :
  is_nan a = false → is_nan b = false → is_Some (PyNum.compare a b).
Proof.
  unfold is_nan, PyNum.compare.
  destruct (value a), (value b); simpl; intros; try done; by eexists.
Qed.

Lemma ltb_asym a b : PyNum.ltb a b = true → PyNum.ltb b a = false.
Proof.
  unfold PyNum.ltb. rewrite (compare_antisym a b).
  by destruct (PyNum.compare a b) as [[]|].
Qed.

(** Without NaN, [not (a <= b)] is [b < a]. *)
Lemma leb_false_ltb a b :
  is_nan a = false → is_nan b = false →
  PyNum.leb a b = false ↔ PyNum.ltb b a = true.
Proof.
  intros Ha Hb. destruct (compare_is_Some a b Ha Hb) as [c Hc].
  unfold PyNum.leb, PyNum.ltb. rewrite (compare_antisym a b), Hc.
  by destruct c.
Qed.

Lemma int_not_nan z : is_nan (PyInt z) = false.
Proof. reflexivity. Qed.

(** ** Record Normalizer *)

Lemma max_index_ge (col_map : gmap string nat) key i :
  col_map !! key = Some i → (i ≤ max_index col_map)%nat.
Proof.
  intros Hi. unfold max_index. apply max_list_elem_of_le.
  apply list_elem_of_fmap. exists (key, i). split; [done|].
  by apply elem_of_map_to_list.
Qed.

(** On a row that passed the width check no read raises, and a read gives
    the cell of the resolved column or else the constant of its [else]. *)
Lemma read_field_wide {A} (col_map : gmap string nat) key dflt row
    (wrap : string → A) otherwise :
  (max_index col_map + 1 ≤ length row)%nat →
  read_field col_map key dflt row wrap otherwise =
    Ok (from_option wrap otherwise (resolved col_map key row)).
Proof.
  intros Hwide. unfold read_field, resolved, getitem.
  destruct (col_map !! key) as [i|] eqn:Hi; [|done]. simpl.
  destruct (lookup_lt_is_Some_2 row i) as [cell Hcell].
  { apply max_index_ge in Hi. lia. }
  by rewrite Hcell.
Qed.

Lemma strip_nonempty s : PyStr.strip s ≠ "" → is_empty s = false.
Proof. by destruct s. Qed.

Lemma is_empty_false s : is_empty s = false ↔ s ≠ "".
Proof. by destruct s. Qed.

Lemma is_empty_true s : is_empty s = true ↔ s = "".
Proof. by destruct s. Qed.

(** The loop body as a function of the resolved values. *)
Lemma process_row_wide col_map row :
  (max_index col_map + 1 ≤ length row)%nat →
  process_row col_map row =
    Ok (if is_empty (resolved_name col_map row)
           || is_empty (PyStr.strip (resolved_name col_map row)) then None
        else if negb (is_empty (resolved_show_mobile col_map row))
                && PyStr.contains "no" (PyStr.lower (resolved_show_mobile col_map row))
        then None
        else if PyNum.leb (clean_price (resolved_price col_map row)) (PyInt 0)
        then None
        else Some {| pkg_id := default "" (resolved col_map "id" row);
                     pkg_name := resolved_name col_map row;
                     pkg_displayName := display_name_of (resolved_name col_map row);
                     pkg_price := clean_price (resolved_price col_map row);
                     pkg_laborHours := clean_hours (resolved_hours col_map row);
                     pkg_description := default "" (resolved col_map "description" row);
                     pkg_category := categorize_package (resolved_name col_map row);
                     pkg_tier := None;
                     pkg_upsellTo := [] |}).
Proof.
  intros Hwide. unfold process_row.
  assert ((length row <? max_index col_map + 1)%nat = false) as ->
    by (apply Nat.ltb_ge; lia).
  rewrite !read_field_wide by done. cbn [bind].
  fold (resolved_name col_map row) (resolved_show_mobile col_map row)
       (resolved_price col_map row) (resolved_hours col_map row).
  destruct (is_empty (resolved_name col_map row)
            || is_empty (PyStr.strip (resolved_name col_map row))); [done|].
  destruct (negb (is_empty (resolved_show_mobile col_map row))
            && PyStr.contains "no" (PyStr.lower (resolved_show_mobile col_map row)));
    [done|].
  destruct (PyNum.leb (clean_price (resolved_price col_map row)) (PyInt 0)); done.
Qed.

Lemma process_row_narrow col_map row :
  (length row < max_index col_map + 1)%nat → process_row col_map row = Ok None.
Proof.
  intros Hlt. unfold process_row.
  by assert ((length row <? max_index col_map + 1)%nat = true) as ->
    by (apply Nat.ltb_lt; lia).
Qed.

(** No row makes the loop body raise. *)
Lemma process_row_never_raises col_map row :
  process_row col_map row = Ok (emitted col_map row).
Proof.
  unfold emitted.
  destruct (decide (length row < max_index col_map + 1)%nat) as [Hlt|Hge].
  - by rewrite process_row_narrow.
  - by rewrite process_row_wide by lia.
Qed.

Lemma process_rows_total col_map data :
  process_rows col_map data = Ok (omap (emitted col_map) data).
Proof.
  induction data as [|row data IH]; [done|].
  simpl. rewrite process_row_never_raises, IH. simpl.
  by destruct (emitted col_map row).
Qed.


(** C1 (as the code has it): every data row is processed without error
    and contributes at most one record.  A field whose column the header
    did not resolve reads as a constant (name: the empty text, mobile
    flag: "Yes", price: 0).  For a row whose cleaned price is a number
    (not NaN), a record is emitted exactly when the name is not blank, the
    lowercased mobile flag does not contain "no", the cleaned price is
    above 0 and the row reaches the highest header-resolved column. *)
Theorem normalizer_emits_iff (row0 : list string) (data : list (list string)) :
  process_crm_data (row0 :: data) = Ok (omap (emitted (build_col_map row0)) data) ∧
  ∀ row,
    process_row (build_col_map row0) row = Ok (emitted (build_col_map row0) row) ∧
    (is_nan (clean_price (resolved_price (build_col_map row0) row)) = false →
     is_Some (emitted (build_col_map row0) row) ↔
       PyStr.strip (resolved_name (build_col_map row0) row) ≠ "" ∧
       PyStr.contains "no"
         (PyStr.lower (resolved_show_mobile (build_col_map row0) row)) = false ∧
       PyNum.ltb (PyInt 0)
         (clean_price (resolved_price (build_col_map row0) row)) = true ∧
       (max_index (build_col_map row0) + 1 ≤ length row)%nat).
Proof.
  split; [apply process_rows_total|].
  intros row. split; [apply process_row_never_raises|].
  generalize (build_col_map row0). intros cm Hnan.
  rewrite <- (leb_false_ltb _ (PyInt 0) Hnan (int_not_nan 0)).
  unfold emitted.
  destruct (decide (length row < max_index cm + 1)%nat) as [Hlt|Hge].
  - rewrite process_row_narrow by done. split.
    + by intros [? ?].
    + intros (_ & _ & _ & ?). lia.
  - rewrite process_row_wide by lia.
    destruct (is_empty (resolved_name cm row)) eqn:Hname; simpl.
    { apply is_empty_true in Hname. rewrite Hname. split.
      - by intros [? ?].
      - by intros (? & _). }
    destruct (is_empty (PyStr.strip (resolved_name cm row))) eqn:Hstrip; simpl.
    { apply is_empty_true in Hstrip. split.
      - by intros [? ?].
      - by intros (? & _). }
    apply is_empty_false in Hstrip.
    destruct (PyStr.contains "no" (PyStr.lower (resolved_show_mobile cm row)))
      eqn:Hno.
    { rewrite andb_true_r.
      destruct (is_empty (resolved_show_mobile cm row)) eqn:Hshow; simpl.
      - apply is_empty_true in Hshow. rewrite Hshow in Hno. discriminate Hno.
      - split; [by intros [? ?]|]. by intros (_ & ? & _). }
    rewrite andb_false_r.
    destruct (PyNum.leb (clean_price (resolved_price cm row)) (PyInt 0)).
    + split; [by intros [? ?]|]. by intros (_ & _ & ? & _).
    + split; [|by eexists]. intros _. repeat split; [done|lia].
Qed.

Lemma normalizer_emits_iff_witness :
  is_Some (emitted (build_col_map ["Name"; "Sales Price"]) ["PANEL"; "$1,500"]).
Proof.
  apply (proj2 (normalizer_emits_iff ["Name"; "Sales Price"] [])
           ["PANEL"; "$1,500"]).
  - reflexivity.
  - repeat split; [discriminate|vm_compute; lia].
Defined.

(** C1 as stated fails in two ways.  With fields resolved through the
    positional defaults, the row below meets all four conditions and no
    record is emitted: the header resolves no column, so the name reads as
    empty.  And the price cell "nan" is cleaned to NaN, which is not
    above 0, yet its record is emitted. *)
Lemma normalizer_emits_iff_fails :
  (∃ name show price,
      let col_map := build_col_map ["Ref"; "Item"] in
      let row := ["101"; "PANEL"; ""; "2"; ""; "1500"; "Yes"; ""; "200A"] in
      positional col_map "name" 1 row = Some name ∧
      PyStr.strip name ≠ "" ∧
      positional col_map "show_mobile" 6 row = Some show ∧
      PyStr.contains "no" (PyStr.lower show) = false ∧
      positional col_map "price" 5 row = Some price ∧
      PyNum.ltb (PyInt 0) (clean_price (Text price)) = true ∧
      (max_index col_map + 1 ≤ length row)%nat ∧
      process_crm_data [["Ref"; "Item"]; row] = Ok []) ∧
  (∃ p,
      process_crm_data [["Name"; "Sales Price"]; ["PANEL"; "nan"]] = Ok [p] ∧
      pkg_price p = PyNum.nan ∧
      PyNum.ltb (PyInt 0) (pkg_price p) = false).
Proof.
  split.
  - exists "PANEL", "Yes", "1500". vm_compute.
    repeat split; try discriminate. lia.
  - eexists. vm_compute. repeat split.
Qed.




(** C6 (as the code has it): an emitted record has a price that is not
    at or below 0, hence above 0 whenever it is a number (not NaN).  Its
    labor hours are 0 when the hours column is not resolved or [float]
    rejects the text of the hours cell (the empty text included), and
    otherwise they are the value [float] gives for that text, whatever its
    sign; [clean_hours] is [float] with 0 for the texts [float] rejects. *)
Theorem emitted_price_and_hours (col_map : gmap string nat) (row : list string)
    (p : package) :
  process_row col_map row = Ok (Some p) →
  PyNum.leb (pkg_price p) (PyInt 0) = false ∧
  (is_nan (pkg_price p) = false → PyNum.ltb (PyInt 0) (pkg_price p) = true) ∧
  pkg_laborHours p =
    match resolved col_map "hours" row with
    | Some cell =>
        match float cell with
        | Some x => x
        | None => PyInt 0
        end
    | None => PyInt 0
    end ∧
  ∀ s, clean_hours (Text s) =
       match float s with
       | Some x => x
       | None => PyInt 0
       end.
Proof.
  intros Hp.
  assert (∀ s, clean_hours (Text s)
               = match float s with Some x => x | None => PyInt 0 end) as Hclean
    by (by intros [|c s]).
  destruct (decide (length row < max_index col_map + 1)%nat) as [Hlt|Hge].
  { by rewrite process_row_narrow in Hp. }
  rewrite process_row_wide in Hp by lia.
  repeat match type of Hp with
         | context [if ?b then _ else _] => destruct b eqn:?; [done|]
         end.
  injection Hp as <-. simpl.
  split; [done|]. split; [|split; [|done]].
  - intros Hnan. by apply leb_false_ltb; [|apply int_not_nan|].
  - unfold resolved_hours.
    destruct (resolved col_map "hours" row) as [cell|]; [|done]. apply Hclean.
Qed.

Lemma emitted_price_and_hours_witness :
  PyFloat (S754_finite true 5629499534213120 (-50))
  = match resolved (build_col_map ["Name"; "Sales Price"; "Labor Hours"]) "hours"
            ["PANEL"; "4"; "-5"] with
    | Some cell =>
        match float cell with
        | Some x => x
        | None => PyInt 0
        end
    | None => PyInt 0
    end.
Proof.
  refine (proj1 (proj2 (proj2 (emitted_price_and_hours
            (build_col_map ["Name"; "Sales Price"; "Labor Hours"])
            ["PANEL"; "4"; "-5"]
            {| pkg_id := ""; pkg_name := "PANEL"; pkg_displayName := "PANEL";
               pkg_price := PyFloat (S754_finite false 4503599627370496 (-50));
               pkg_laborHours := PyFloat (S754_finite true 5629499534213120 (-50));
               pkg_description := "";
               pkg_category := "Panel Upgrades";
               pkg_tier := None; pkg_upsellTo := [] |} _)))).
  vm_compute. reflexivity.
Defined.

(** C6 as stated fails: [clean_hours] gives -5.0 for the text "-5", and
    the record of a row with that hours cell is emitted with negative
    labor hours. *)
Lemma labor_hours_can_be_negative :
  clean_hours (Text "-5") = PyFloat (S754_finite true 5629499534213120 (-50)) ∧
  PyNum.ltb (clean_hours (Text "-5")) (PyInt 0) = true ∧
  ∃ p,
    process_crm_data [["Name"; "Sales Price"; "Labor Hours"];
                      ["PANEL"; "100"; "-5"]] = Ok [p] ∧
    PyNum.leb (PyInt 0) (pkg_laborHours p) = false.
Proof.
  split; [|split]; [vm_compute; reflexivity..|].
  eexists. vm_compute. by split.
Qed.

(** ** Spreadsheet markup without a table *)

Lemma find_first_None {A} (p : A → bool) l :
  find_first p l = None ↔ ∀ x, x ∈ l → p x = false.
Proof.
  induction l as [|y l IH]; simpl.
  - split; [|done]. intros _ x Hx. by apply elem_of_nil in Hx.
  - destruct (p y) eqn:Hy.
    + split; [done|]. intros H. rewrite H in Hy; [done|by left].
    + rewrite IH. split.
      * intros H x [->|Hx]%elem_of_cons; [done|by apply H].
      * intros H x Hx. apply H. by right.
Qed.

Lemma find_first_Some {A} (p : A → bool) l x :
  find_first p l = Some x → x ∈ l ∧ p x = true.
Proof.
  induction l as [|y l IH]; simpl; [done|].
  destruct (p y) eqn:Hy.
  - intros [= <-]. split; [by left|done].
  - intros [Hx Hp]%IH. split; [by right|done].
Qed.

Lemma iter_self e : e ∈ iter e.
Proof. destruct e. by left. Qed.

Lemma iter_child e c d :
  c ∈ children e → d ∈ iter c → d ∈ iter e.
Proof.
  destruct e as [t x cs]. simpl. intros Hc Hd. right.
  apply list_elem_of_In, in_flat_map. exists c.
  split; by apply list_elem_of_In.
Qed.

(** The descendants of a descendant are descendants. *)
Lemma iter_trans root :
  ∀ w e, w ∈ iter root → e ∈ iter w → e ∈ iter root.
Proof.
  induction root as [t x cs IH] using element_children_ind.
  intros w e Hw He. simpl in Hw. apply elem_of_cons in Hw as [->|Hw]; [done|].
  apply list_elem_of_In, in_flat_map in Hw as (c & Hc & Hw).
  apply list_elem_of_In in Hc, Hw.
  apply (iter_child (Element t x cs) c); [done|].
  rewrite Forall_forall in IH. by apply (IH c Hc w e).
Qed.

Lemma find_descendant_Some local w d :
  find_descendant local w = Some d →
  d ∈ iter w ∧ tag d = qualified ss_ns local.
Proof.
  unfold find_descendant. intros [Hd Htag]%find_first_Some. split.
  - destruct w as [t x cs]. simpl in *. by right.
  - by apply String.eqb_eq.
Qed.

(** The parser raises exactly when no element of the document has a tag
    containing "Table". *)
Lemma parse_xml_spreadsheet_raises root :
  (∀ e, e ∈ iter root → PyStr.contains "Table" (tag e) = false) ↔
  parse_xml_spreadsheet root = Raise (ValueError "Could not find Table element in XML").
Proof.
  unfold parse_xml_spreadsheet. split.
  - intros Hnone.
    assert (scan_for "Table" root = None) as Hscan
      by (by apply find_first_None).
    assert (∀ w, w ∈ iter root → find_descendant "Table" w = None) as Hdesc.
    { intros w Hw. destruct (find_descendant "Table" w) as [d|] eqn:Hd; [|done].
      apply find_descendant_Some in Hd as [Hd Htag].
      specialize (Hnone d (iter_trans root w d Hw Hd)).
      rewrite Htag in Hnone. discriminate Hnone. }
    destruct (find_descendant "Worksheet" root) as [w|] eqn:Hw.
    + apply find_descendant_Some in Hw as [Hw _].
      by rewrite (Hdesc w Hw), Hscan.
    + destruct (scan_for "Worksheet" root) as [w|] eqn:Hw'.
      * apply find_first_Some in Hw' as [Hw' _].
        by rewrite (Hdesc w Hw'), Hscan.
      * by rewrite Hscan.
  - intros Hraise. apply find_first_None. fold (scan_for "Table" root).
    revert Hraise. destruct (scan_for "Table" root); [|done].
    by repeat case_match.
Qed.

(** C8: when the input is detected as spreadsheet markup and no element
    of the parsed document has a tag containing "Table", [main] ends with
    the uncaught [ValueError] of the parser and the output file is left as
    it was: nothing, not even a partial document, is written. *)
Theorem missing_table_aborts (fs : files) (argv1 : option string)
    (out : option output_file) (filepath : string) (root : element) :
  choose_path fs argv1 = Ok filepath →
  is_spreadsheet_markup (file_start fs filepath) = true →
  et_parse fs filepath = Ok root →
  (∀ e, e ∈ iter root → PyStr.contains "Table" (tag e) = false) →
  parse_xml_spreadsheet root =
    Raise (ValueError "Could not find Table element in XML") ∧
  main fs argv1 out =
    (Raise (ValueError "Could not find Table element in XML"), out).
Proof.
  intros Hpath Hxml Hparse Hnone.
  apply parse_xml_spreadsheet_raises in Hnone. split; [done|].
  unfold main, read_rows. rewrite Hpath. cbn [bind].
  rewrite Hxml, Hparse. cbn [bind]. by rewrite Hnone.
Qed.

Lemma missing_table_aborts_witness :
  main {| file_exists := fun _ => true;
          file_start := fun _ => "<?xml version='1.0'?><Workbook>";
          et_parse := fun _ =>
            Ok (Element "Workbook" None
                  [Element "Worksheet" None [Element "Row" None []]]);
          csv_reader := fun _ => Ok [];
          write_fails := None |}
       (Some "export.xls") None
  = (Raise (ValueError "Could not find Table element in XML"), None).
Proof.
  refine (proj2 (missing_table_aborts _ (Some "export.xls") None "export.xls"
                   (Element "Workbook" None
                      [Element "Worksheet" None [Element "Row" None []]])
                   _ _ _ _)).
  - reflexivity.
  - reflexivity.
  - reflexivity.
  - intros e He.
    repeat (apply elem_of_cons in He as [->|He]; [reflexivity|]).
    by apply elem_of_nil in He.
Defined.

(** ** Sorting *)

Lemma filter_none {A} (P : A → Prop) `{!∀ x, Decision (P x)} (l : list A) :
  Forall (fun z => ¬ P z) l → filter P l = [].
Proof.
  induction 1 as [|z l Hz _ IH]; [done|].
  by rewrite filter_cons_False.
Qed.

Section PySortFacts.
Context {A : Type} (lt : A → A → bool).

Lemma insert_sorted_perm x l : insert_sorted lt x l ≡ₚ x :: l.
Proof.
  induction l as [|y l IH]; simpl; [done|].
  destruct (lt x y); [done|]. rewrite IH. apply perm_swap.
Qed.

Lemma fold_insert_perm l acc :
  fold_left (fun acc x => insert_sorted lt x acc) l acc ≡ₚ acc ++ l.
Proof.
  revert acc. induction l as [|x l IH]; intros acc; simpl.
  - by rewrite app_nil_r.
  - rewrite IH, insert_sorted_perm. apply Permutation_middle.
Qed.

Lemma py_sort_perm l : py_sort lt l ≡ₚ l.
Proof. apply (fold_insert_perm l []). Qed.

(** The comparison orders the elements satisfying [dom] totally. *)
Context (dom : A → Prop).
Hypothesis lt_asym : ∀ a b, dom a → dom b → lt a b = true → lt b a = false.
Hypothesis not_after_trans :
  ∀ a b c, dom a → dom b → dom c →
           not_after lt a b → not_after lt b c → not_after lt a c.

Lemma insert_sorted_sorted x l :
  dom x → Forall dom l →
  StronglySorted (not_after lt) l →
  StronglySorted (not_after lt) (insert_sorted lt x l).
Proof.
  intros Hx Hl Hs. induction Hs as [|y l Hs IH Hy]; simpl.
  - repeat constructor.
  - apply Forall_cons in Hl as [Hdy Hl].
    destruct (lt x y) eqn:Hxy.
    + constructor; [by constructor|].
      assert (not_after lt x y) as Hle by (by apply lt_asym).
      constructor; [done|].
      rewrite Forall_forall in Hy, Hl. apply Forall_forall. intros z Hz.
      apply (not_after_trans x y z); auto.
    + constructor; [by apply IH|].
      rewrite insert_sorted_perm. by constructor.
Qed.

Lemma fold_insert_sorted l acc :
  Forall dom l → Forall dom acc →
  StronglySorted (not_after lt) acc →
  StronglySorted (not_after lt)
    (fold_left (fun acc x => insert_sorted lt x acc) l acc).
Proof.
  revert acc. induction l as [|x l IH]; intros acc Hl Hacc Hs; simpl; [done|].
  apply Forall_cons in Hl as [Hx Hl].
  apply IH; [done| |by apply insert_sorted_sorted].
  rewrite insert_sorted_perm. by constructor.
Qed.

Lemma py_sort_sorted l :
  Forall dom l → StronglySorted (not_after lt) (py_sort lt l).
Proof. intros Hl. apply fold_insert_sorted; [done|constructor..]. Qed.

(** Stability: the elements of a class [P] of mutually unordered elements
    keep their order. *)
Context (P : A → Prop) `{!∀ x, Decision (P x)}.
Hypothesis P_unordered : ∀ a b, dom a → dom b → P a → P b → lt a b = false.

Lemma insert_sorted_filter x l :
  dom x → Forall dom l →
  StronglySorted (not_after lt) l →
  filter P (insert_sorted lt x l) = filter P l ++ filter P [x].
Proof.
  intros Hx Hl Hs. induction Hs as [|y l Hs IH Hy]; simpl; [done|].
  apply Forall_cons in Hl as [Hdy Hl].
  destruct (lt x y) eqn:Hxy.
  - destruct (decide (P x)) as [HP|HP].
    + rewrite (filter_cons_True _ x) by done.
      assert (filter P (y :: l) = []) as ->; [|by rewrite filter_cons_True].
      apply filter_none. rewrite Forall_forall in Hy, Hl.
      apply Forall_forall. intros z Hz HPz.
      assert (dom z) as Hdz by (apply elem_of_cons in Hz as [->|Hz]; auto).
      assert (not_after lt y z) as Hyz.
      { apply elem_of_cons in Hz as [->|Hz]; [|by apply Hy].
        unfold not_after. destruct (lt y y) eqn:Hyy; [|done].
        by rewrite (lt_asym y y) in Hyy. }
      assert (not_after lt z x) as Hzx by (by apply P_unordered).
      pose proof (not_after_trans y z x Hdy Hdz Hx Hyz Hzx) as Hyx.
      unfold not_after in Hyx. congruence.
    + rewrite (filter_cons_False _ x) by done.
      rewrite (filter_cons_False _ x []) by done. by rewrite app_nil_r.
  - rewrite !filter_cons. rewrite (IH Hl).
    destruct (decide (P y)); [done|done].
Qed.

Lemma fold_insert_filter l acc :
  Forall dom l → Forall dom acc →
  StronglySorted (not_after lt) acc →
  filter P (fold_left (fun acc x => insert_sorted lt x acc) l acc)
  = filter P acc ++ filter P l.
Proof.
  revert acc. induction l as [|x l IH]; intros acc Hl Hacc Hs; simpl.
  - by rewrite app_nil_r.
  - apply Forall_cons in Hl as [Hx Hl].
    rewrite IH; [|done| |by apply insert_sorted_sorted].
    + rewrite insert_sorted_filter by done.
      rewrite <- app_assoc. f_equal.
      rewrite (filter_cons _ x l), (filter_cons _ x []).
      by destruct (decide (P x)).
    + rewrite insert_sorted_perm. by constructor.
Qed.

Lemma py_sort_stable l :
  Forall dom l → filter P (py_sort lt l) = filter P l.
Proof. intros Hl. apply (fold_insert_filter l []); [done|constructor..]. Qed.

End PySortFacts.

(** ** Order of strings *)

Lemma str_ltb_lt a b : PyStr.ltb a b = true ↔ String_as_OT.lt a b.
Proof.
  unfold PyStr.ltb, String_as_OT.lt.
  destruct (String_as_OT.compare a b); split; congruence.
Qed.

Lemma str_ltb_asym a b : PyStr.ltb a b = true → PyStr.ltb b a = false.
Proof.
  intros Hab%str_ltb_lt. destruct (PyStr.ltb b a) eqn:Hba; [|done].
  apply str_ltb_lt in Hba.
  destruct (irreflexivity String_as_OT.lt a). by transitivity b.
Qed.

Lemma str_trichotomy a b :
  PyStr.ltb a b = false → PyStr.ltb b a = false → a = b.
Proof.
  intros Hab Hba.
  destruct (String_as_OT.compare_spec a b) as [Heq|Hlt|Hgt]; [done|..].
  - apply str_ltb_lt in Hlt. congruence.
  - apply str_ltb_lt in Hgt. congruence.
Qed.

Lemma str_not_after_trans a b c :
  not_after PyStr.ltb a b → not_after PyStr.ltb b c → not_after PyStr.ltb a c.
Proof.
  unfold not_after. intros Hba Hcb.
  destruct (PyStr.ltb c a) eqn:Hca; [|done].
  destruct (PyStr.ltb a b) eqn:Hab.
  - apply str_ltb_lt in Hca, Hab.
    assert (String_as_OT.lt c b) as Hlt by (by transitivity a).
    apply str_ltb_lt in Hlt. congruence.
  - rewrite (str_trichotomy a b Hab Hba) in Hca. congruence.
Qed.

(** ** Independence from the order of traversal *)

Lemma NoDup_keys_inj {V} (l : list (string * V)) a b :
  NoDup l.*1 → a ∈ l → b ∈ l → a.1 = b.1 → a = b.
Proof.
  induction l as [|x l IH]; simpl; intros Hnd Ha Hb Hkey.
  - by apply elem_of_nil in Ha.
  - apply NoDup_cons in Hnd as [Hx Hnd].
    apply elem_of_cons in Ha as [->|Ha], Hb as [->|Hb]; [done| | |by apply IH].
    + destruct Hx. rewrite Hkey. by apply list_elem_of_fmap_2.
    + destruct Hx. rewrite <- Hkey. by apply list_elem_of_fmap_2.
Qed.

Lemma py_sort_items_sorted (items : list (string * cat_data)) :
  StronglySorted (not_after item_lt) (py_sort item_lt items).
Proof.
  apply (py_sort_sorted item_lt (fun _ => True)).
  - intros a b _ _. apply str_ltb_asym.
  - intros a b c _ _ _. apply str_not_after_trans.
  - by apply Forall_forall.
Qed.

(** Sorting the items of a dictionary gives the same sequence whatever
    the order in which they were enumerated. *)
Lemma py_sort_items_unique (items1 items2 : list (string * cat_data)) :
  NoDup items1.*1 → items1 ≡ₚ items2 →
  py_sort item_lt items1 = py_sort item_lt items2.
Proof.
  intros Hnd Hperm.
  apply (StronglySorted_unique_strong (not_after item_lt));
    [|apply py_sort_items_sorted..|].
  - intros a b Ha Hb Hab Hba.
    rewrite py_sort_perm in Ha, Hb. rewrite <- Hperm in Hb.
    apply (NoDup_keys_inj items1); [done..|].
    by apply str_trichotomy.
  - by rewrite !py_sort_perm.
Qed.


(** C9: the transformation always produces a document, and the document
    is the same for every run on the same rows, in whatever order a run
    enumerates the category dictionary; so any serialisation of it is the
    same text. *)
Theorem pipeline_deterministic (rows : list (list string))
    (items1 items2 : list (string * cat_data)) (d1 d2 : document) :
  run rows items1 d1 → run rows items2 d2 →
  pipeline rows = Ok d1 ∧ d1 = d2 ∧
  ∀ json_dump : document → string, json_dump d1 = json_dump d2.
Proof.
  intros (pk1 & Hp1 & Hi1 & ->) (pk2 & Hp2 & Hi2 & ->).
  rewrite Hp1 in Hp2. injection Hp2 as <-.
  assert (NoDup items1.*1) as Hnd.
  { rewrite Hi1. apply NoDup_fst_map_to_list. }
  assert (groups_of_items items1 = groups_of_items items2) as Heq.
  { unfold groups_of_items. f_equal. apply py_sort_items_unique; [done|].
    by rewrite Hi1, Hi2. }
  split; [|split].
  - unfold pipeline, organize_by_category, groups_of_items. rewrite Hp1. simpl.
    do 3 f_equal.
    apply py_sort_items_unique; [apply NoDup_fst_map_to_list|by symmetry].
  - by rewrite Heq.
  - intros json_dump. by rewrite Heq.
Qed.

Lemma pipeline_deterministic_witness :
  pipeline sample_rows = Ok (build_document (groups_of_items sample_items)) ∧
  build_document (groups_of_items sample_items)
  = build_document (groups_of_items (reverse sample_items)) ∧
  ∀ json_dump : document → string,
    json_dump (build_document (groups_of_items sample_items))
    = json_dump (build_document (groups_of_items (reverse sample_items))).
Proof.
  assert (map_to_list (group_packages sample_packages) = sample_items) as Hitems
    by (vm_compute; reflexivity).
  apply (pipeline_deterministic sample_rows sample_items (reverse sample_items)).
  - exists sample_packages. split; [vm_compute; reflexivity|].
    split; [by rewrite Hitems|reflexivity].
  - exists sample_packages. split; [vm_compute; reflexivity|].
    split; [|reflexivity]. rewrite Hitems. apply reverse_Permutation.
Defined.

(** ** Aggregator *)

Lemma ltb_not_after_trans a b c :
  is_nan a = false → is_nan b = false → is_nan c = false →
  not_after PyNum.ltb a b → not_after PyNum.ltb b c → not_after PyNum.ltb a c.
Proof.
  unfold not_after, PyNum.ltb, is_nan, PyNum.compare.
  destruct (value a) as [| |qa|], (value b) as [| |qb|], (value c) as [| |qc|];
    simpl; try done.
  destruct (Qcompare_spec qb qa), (Qcompare_spec qc qb), (Qcompare_spec qc qa);
    try done; lra.
Qed.

Lemma eqb_unordered a b v :
  PyNum.eqb a v = true → PyNum.eqb b v = true → PyNum.ltb a b = false.
Proof.
  unfold PyNum.eqb, PyNum.ltb, PyNum.compare.
  destruct (value a) as [| |qa|], (value b) as [| |qb|], (value v) as [| |qv|];
    simpl; try done.
  destruct (Qcompare_spec qa qv), (Qcompare_spec qb qv), (Qcompare_spec qa qb);
    try done; lra.
Qed.

Lemma not_after_leb a b :
  is_nan a = false → is_nan b = false →
  not_after PyNum.ltb a b ↔ PyNum.leb a b = true.
Proof.
  intros Ha Hb. unfold not_after.
  pose proof (leb_false_ltb a b Ha Hb) as H.
  destruct (PyNum.leb a b), (PyNum.ltb b a); intuition congruence.
Qed.

(** Only the float infinity is a number that is not below infinity. *)
Lemma not_below_inf a :
  is_nan a = false → PyNum.ltb a PyNum.inf = false → a = PyNum.inf.
Proof.
  unfold is_nan, PyNum.ltb, PyNum.compare.
  destruct a as [z|[s|[]| |s m e]]; simpl; done.
Qed.

Lemma running_min_cases init l :
  running_min init l = init ∨ ∃ p, p ∈ l ∧ running_min init l = pkg_price p.
Proof.
  revert init. induction l as [|x l IH]; intros init; [by left|].
  unfold running_min. simpl. fold (running_min
    (if PyNum.ltb (pkg_price x) init then pkg_price x else init) l).
  destruct (IH (if PyNum.ltb (pkg_price x) init then pkg_price x else init))
    as [->|(p & Hp & ->)].
  - destruct (PyNum.ltb (pkg_price x) init); [|by left].
    right. exists x. split; [by left|done].
  - right. exists p. split; [by right|done].
Qed.

Lemma running_min_not_nan init l :
  is_nan init = false → Forall has_price l → is_nan (running_min init l) = false.
Proof.
  intros Hinit Hl. destruct (running_min_cases init l) as [->|(p & Hp & ->)];
    [done|].
  rewrite Forall_forall in Hl. by apply Hl.
Qed.

(** The running minimum is below its start and below every price seen. *)
Lemma running_min_lower_bound init l :
  is_nan init = false → Forall has_price l →
  not_after PyNum.ltb (running_min init l) init ∧
  ∀ q, q ∈ l → not_after PyNum.ltb (running_min init l) (pkg_price q).
Proof.
  revert init. induction l as [|x l IH]; intros init Hinit Hl.
  - split.
    + unfold not_after. simpl. destruct (PyNum.ltb init init) eqn:H; [|done].
      by rewrite (ltb_asym init init) in H.
    + intros q Hq. by apply elem_of_nil in Hq.
  - apply Forall_cons in Hl as [Hx Hl].
    set (init' := if PyNum.ltb (pkg_price x) init then pkg_price x else init).
    assert (running_min init (x :: l) = running_min init' l) as -> by done.
    assert (is_nan init' = false) as Hinit'
      by (unfold init'; by destruct (PyNum.ltb (pkg_price x) init)).
    destruct (IH init' Hinit' Hl) as [Hle Hall].
    pose proof (running_min_not_nan init' l Hinit' Hl) as Hmin.
    assert (not_after PyNum.ltb init' init ∧
            not_after PyNum.ltb init' (pkg_price x)) as [Hi Hp].
    { unfold init', not_after.
      destruct (PyNum.ltb (pkg_price x) init) eqn:Hlt.
      - split; [by apply ltb_asym|].
        destruct (PyNum.ltb (pkg_price x) (pkg_price x)) eqn:H; [|done].
        by rewrite (ltb_asym _ _ H) in H.
      - split; [|done].
        destruct (PyNum.ltb init init) eqn:H; [|done].
        by rewrite (ltb_asym _ _ H) in H. }
    split.
    + by apply (ltb_not_after_trans _ init' _).
    + intros q [->|Hq]%elem_of_cons; [|by apply Hall].
      by apply (ltb_not_after_trans _ init' _).
Qed.

(** The grouping loop: what it leaves under a category. *)
Lemma fold_add_package_lookup packages categories c d :
  fold_left add_package packages categories !! c = Some d →
  cd_packages d
  = cd_packages (default default_cat_data (categories !! c))
    ++ in_category c packages ∧
  cd_startingAt d
  = running_min (cd_startingAt (default default_cat_data (categories !! c)))
      (in_category c packages) ∧
  (categories !! c = None → in_category c packages ≠ []).
Proof.
  revert categories. induction packages as [|p packages IH];
    intros categories Hd; simpl in Hd.
  - rewrite Hd. simpl. rewrite app_nil_r. repeat split. congruence.
  - apply IH in Hd as (Hpk & Hst & Hne). unfold in_category.
    rewrite filter_cons. unfold add_package in Hpk, Hst, Hne.
    destruct (decide (pkg_category p = c)) as [Hc|Hc].
    + rewrite Hc, lookup_insert_eq in Hpk, Hst. simpl in Hpk, Hst.
      rewrite Hpk, Hst, <- app_assoc. repeat split. done.
    + rewrite lookup_insert_ne in Hpk, Hst, Hne by done. done.
Qed.

Lemma fold_add_package_is_Some packages categories c :
  is_Some (categories !! c) ∨ in_category c packages ≠ [] →
  is_Some (fold_left add_package packages categories !! c).
Proof.
  revert categories. induction packages as [|p packages IH];
    intros categories H; simpl.
  - by destruct H.
  - apply IH. unfold add_package.
    destruct (decide (pkg_category p = c)) as [Hc|Hc].
    + left. rewrite Hc, lookup_insert_eq. by eexists.
    + rewrite lookup_insert_ne by done.
      destruct H as [H|H]; [by left|right].
      unfold in_category in *. by rewrite filter_cons_False in H.
Qed.

Lemma group_packages_lookup packages c d :
  group_packages packages !! c = Some d →
  cd_packages d = in_category c packages ∧
  cd_startingAt d = running_min PyNum.inf (in_category c packages) ∧
  in_category c packages ≠ [].
Proof.
  intros (Hpk & Hst & Hne)%fold_add_package_lookup.
  rewrite lookup_empty in Hpk, Hst. repeat split; [done..|].
  apply Hne, lookup_empty.
Qed.

Lemma StronglySorted_weaken {A} (R R' : relation A) (dom : A → Prop) l :
  (∀ a b, dom a → dom b → R a b → R' a b) →
  Forall dom l → StronglySorted R l → StronglySorted R' l.
Proof.
  intros Himpl Hdom Hs. induction Hs as [|x l Hs IH Hx]; [constructor|].
  apply Forall_cons in Hdom as [Hdx Hdom]. constructor; [by apply IH|].
  rewrite Forall_forall in Hx, Hdom. apply Forall_forall. intros y Hy.
  apply Himpl; auto.
Qed.

Lemma organize_group_inv packages g :
  g ∈ organize_by_category packages ↔
  ∃ c d, group_packages packages !! c = Some d ∧ g = make_group (c, d).
Proof.
  unfold organize_by_category, groups_of_items.
  rewrite list_elem_of_fmap. split.
  - intros ([c d] & -> & Hitem). rewrite py_sort_perm in Hitem.
    apply elem_of_map_to_list in Hitem. by exists c, d.
  - intros (c & d & Hd & ->). exists (c, d). split; [done|].
    rewrite py_sort_perm. by apply elem_of_map_to_list.
Qed.

Lemma organize_names_ascending packages :
  StronglySorted (fun g h => PyStr.ltb (cg_name g) (cg_name h) = true)
    (organize_by_category packages).
Proof.
  unfold organize_by_category, groups_of_items.
  apply (StronglySorted_fmap make_group (fun a b => PyStr.ltb a.1 b.1 = true)).
  { intros x y Hxy.
    by destruct (make_group_icon x) as [-> _], (make_group_icon y) as [-> _]. }
  pose proof (py_sort_items_sorted (map_to_list (group_packages packages))) as Hs.
  assert (NoDup (py_sort item_lt (map_to_list (group_packages packages))).*1)
    as Hnd by (rewrite py_sort_perm; apply NoDup_fst_map_to_list).
  induction Hs as [|x l Hs IH Hx]; [constructor|].
  simpl in Hnd. apply NoDup_cons in Hnd as [Hxl Hnd].
  constructor; [by apply IH|].
  rewrite Forall_forall in Hx. apply Forall_forall. intros y Hy.
  destruct (PyStr.ltb x.1 y.1) eqn:Hxy; [done|].
  destruct Hxl. rewrite (str_trichotomy x.1 y.1 Hxy (Hx y Hy)).
  by apply list_elem_of_fmap_2.
Qed.

Lemma in_category_has_price c packages :
  Forall has_price packages → Forall has_price (in_category c packages).
Proof.
  rewrite !Forall_forall. intros H p [_ Hp]%list_elem_of_filter. by apply H.
Qed.

(** X22: what the Aggregator guarantees.  For every package list the
    groups come in strictly ascending order of name, one for each
    category present.  For package lists whose prices are numbers (no
    NaN), moreover, the packages of a group are the packages of its
    category sorted by ascending price, packages of equal price keeping
    their order, and [startingAt] is the price of a package of the group
    that no package of the group undercuts. *)
Theorem organize_by_category_sorted (packages : list package) :
  StronglySorted (fun g h => PyStr.ltb (cg_name g) (cg_name h) = true)
    (organize_by_category packages) ∧
  (∀ p, p ∈ packages →
        ∃ g, g ∈ organize_by_category packages ∧ cg_name g = pkg_category p) ∧
  (Forall has_price packages →
   ∀ g, g ∈ organize_by_category packages →
    in_category (cg_name g) packages ≠ [] ∧
    cg_packages g ≡ₚ in_category (cg_name g) packages ∧
    StronglySorted price_le (cg_packages g) ∧
    (∀ v, priced v (cg_packages g) = priced v (in_category (cg_name g) packages)) ∧
    (∃ p, p ∈ cg_packages g ∧ cg_startingAt g = pkg_price p) ∧
    (∀ q, q ∈ cg_packages g → PyNum.leb (cg_startingAt g) (pkg_price q) = true)).
Proof.
  split; [apply organize_names_ascending|]. split.
  - intros p Hp.
    destruct (fold_add_package_is_Some packages ∅ (pkg_category p)) as [d Hd].
    { right. intros Hnil. apply (filter_nil_not_elem_of _ _ p) in Hnil; done. }
    exists (make_group (pkg_category p, d)). split; [|done].
    apply organize_group_inv. by exists (pkg_category p), d.
  - intros Hprices g (c & d & Hd & ->)%organize_group_inv. simpl.
    apply group_packages_lookup in Hd as (Hpk & Hst & Hne).
    rewrite Hpk, Hst.
    pose proof (in_category_has_price c packages Hprices) as Hcat.
    set (members := in_category c packages) in *.
    assert (Forall has_price (py_sort price_lt members)) as Hsorted_prices
      by (by rewrite py_sort_perm).
    split; [done|]. split; [apply py_sort_perm|]. split; [|split; [|split]].
    + apply (StronglySorted_weaken (not_after price_lt) price_le has_price);
        [|done|].
      * intros a b Ha Hb Hab. by apply not_after_leb.
      * apply (py_sort_sorted price_lt has_price); [| |done].
        -- intros a b _ _. apply ltb_asym.
        -- intros a b k Ha Hb Hk. by apply ltb_not_after_trans.
    + intros v. unfold priced.
      apply (py_sort_stable price_lt has_price); [| | |done].
      * intros a b _ _. apply ltb_asym.
      * intros a b k Ha Hb Hk. by apply ltb_not_after_trans.
      * intros a b _ _ Ha Hb. by apply (eqb_unordered _ _ v).
    + destruct (running_min_cases PyNum.inf members) as [Hinf|(p & Hp & Hmin)].
      * destruct members as [|p members'] eqn:Hm; [done|].
        exists p. split; [rewrite py_sort_perm; by left|].
        rewrite Hinf. symmetry. apply Forall_cons in Hcat as [Hp Hcat].
        apply not_below_inf; [done|].
        destruct (running_min_lower_bound PyNum.inf (p :: members')) as [_ Hall];
          [done|by constructor|].
        specialize (Hall p). rewrite Hinf in Hall. apply Hall. by left.
      * exists p. split; [by rewrite py_sort_perm|done].
    + intros q Hq. rewrite py_sort_perm in Hq.
      destruct (running_min_lower_bound PyNum.inf members) as [_ Hall];
        [done..|].
      apply not_after_leb; [by apply running_min_not_nan| |by apply Hall].
      rewrite Forall_forall in Hcat. by apply Hcat.
Qed.

Lemma organize_by_category_sorted_witness :
  ∃ g, g ∈ organize_by_category sample_packages ∧
       StronglySorted price_le (cg_packages g) ∧
       ∃ p, p ∈ cg_packages g ∧ cg_startingAt g = pkg_price p.
Proof.
  eexists. split.
  - vm_compute. left.
  - refine ((fun H => conj (proj1 (proj2 (proj2 H))) (proj1 (proj2 (proj2 (proj2 (proj2 H))))))
              (proj2 (proj2 (organize_by_category_sorted sample_packages)) _ _ _)).
    + repeat constructor.
    + vm_compute. left.
Defined.

(** C7: the code at a price that is NaN.  The price cell "nan" passes the
    guard [price <= 0] and yields a record; the group of that record
    starts at infinity, which is the price of none of its packages, so
    [startingAt] is not the minimum price of the group. *)
Lemma nan_price_breaks_starting_price :
  ∃ p g,
    process_crm_data [["Name"; "Sales Price"]; ["PANEL"; "nan"]] = Ok [p] ∧
    organize_by_category [p] = [g] ∧
    cg_packages g = [p] ∧
    pkg_price p = PyNum.nan ∧
    cg_startingAt g = PyNum.inf ∧
    ∀ q, q ∈ cg_packages g → PyNum.eqb (cg_startingAt g) (pkg_price q) = false.
Proof.
  eexists _, _. split; [vm_compute; reflexivity|].
  split; [vm_compute; reflexivity|].
  repeat split. intros q Hq. simpl in Hq.
  apply elem_of_cons in Hq as [->|Hq]; [reflexivity|by apply elem_of_nil in Hq].
Qed.

(** ** Fan rules *)

Lemma search_lit l s : search (Lit l) s = PyStr.contains l s.
Proof.
  induction s as [|c s IH]; simpl.
  - unfold PyStr.startswith. by destruct (PyStr.drop_prefix l "").
  - rewrite IH. unfold PyStr.startswith.
    by destruct (PyStr.drop_prefix l (String c s)).
Qed.

Lemma search_alt r1 r2 s : search (Alt r1 r2) s = search r1 s || search r2 s.
Proof.
  induction s as [|c s IH]; simpl.
  - by rewrite !orb_false_r.
  - rewrite IH.
    destruct (matches r1 (String c s) _), (matches r2 (String c s) _),
      (search r1 s), (search r2 s); done.
Qed.

Lemma contains_cons l c s :
  PyStr.contains l s = true → PyStr.contains l (String c s) = true.
Proof. intros H. simpl. rewrite H. apply orb_true_r. Qed.

Lemma drop_prefix_app p q s r :
  PyStr.drop_prefix (p ++ q)%string s = Some r → PyStr.contains q s = true.
Proof.
  revert s. induction p as [|a p IH]; intros s H.
  - change (PyStr.drop_prefix q s = Some r) in H.
    assert (PyStr.startswith q s = true) as Hs
      by (unfold PyStr.startswith; by rewrite H).
    destruct s; simpl; by rewrite Hs.
  - change (PyStr.drop_prefix (String a (p ++ q)%string) s = Some r) in H.
    destruct s as [|b s]; [done|]. simpl in H.
    destruct (Ascii.eqb a b); [|done].
    apply contains_cons. by apply IH.
Qed.

Lemma contains_app_r p q s :
  PyStr.contains (p ++ q)%string s = true → PyStr.contains q s = true.
Proof.
  induction s as [|c s IH]; simpl; unfold PyStr.startswith at 1;
    intros H.
  - destruct (PyStr.drop_prefix (p ++ q)%string "") eqn:Hd; [|done].
    by apply drop_prefix_app in Hd.
  - destruct (PyStr.drop_prefix (p ++ q)%string (String c s)) eqn:Hd.
    + by apply drop_prefix_app in Hd.
    + simpl in H. apply (contains_cons q c s). by apply IH.
Qed.

(** No name containing "BATH FAN" or "VENT FAN" is ever assigned
    "Bathrooms": such a name contains "FAN", which rule 12 finds first. *)
Lemma fan_names_never_bathrooms name :
  PyStr.contains "BATH FAN" (PyStr.upper name) = true ∨
  PyStr.contains "VENT FAN" (PyStr.upper name) = true →
  categorize_package name ≠ "Bathrooms".
Proof.
  intros H.
  assert (PyStr.contains "FAN" (PyStr.upper name) = true) as Hfan.
  { destruct H as [H|H].
    - by apply (contains_app_r "BATH " "FAN").
    - by apply (contains_app_r "VENT " "FAN"). }
  unfold categorize_package, CATEGORY_PATTERNS. cbn [first_category].
  do 11 (match goal with |- context [if ?b then _ else _] => destruct b end;
         [discriminate|]).
  rewrite search_alt, search_lit, Hfan. discriminate.
Qed.

(** ** The scenarios of the specification *)

Example scenario_panel_upgrade :
  process_crm_data
    [ ["Internal ID"; "Name"; "Type"; "Labor Hours"; "Labor Cost"; "Sales Price";
       "Show on Mobile"; "Group"; "Description"];
      ["101"; "AMSFL_PANEL UPGRADE 200A"; ""; ""; "2"; "1500"; "Yes"; "";
       "Upgrade to 200A"] ]
  = Ok [ {| pkg_id := "101";
            pkg_name := "AMSFL_PANEL UPGRADE 200A";
            pkg_displayName := "PANEL UPGRADE 200A";
            pkg_price := PyFloat (S754_finite false 6597069766656000 (-42));
            pkg_laborHours := PyInt 0;
            pkg_description := "Upgrade to 200A";
            pkg_category := "Panel Upgrades";
            pkg_tier := None;
            pkg_upsellTo := [] |} ].
Proof. vm_compute. reflexivity. Qed.

Example scenario_categories :
  categorize_package "240V CKT FOR EV CHARGER" = "EV Charging" ∧
  categorize_package "WP OUTLET EXTERIOR" = "Exterior Outlets" ∧
  categorize_package "240V CKT FOR DRYER" = "Heavy Duty Circuits".
Proof. vm_compute. repeat split. Qed.

Example scenario_prices :
  PyNum.eqb (clean_price (Text "$1,200")) (PyInt 1200) = true ∧
  clean_price (Text "TBD") = PyInt 0 ∧
  clean_price (Text "0.1") = PyFloat (S754_finite false 7205759403792794 (-56)) ∧
  process_crm_data [["Name"; "Sales Price"]; ["PANEL"; "TBD"]] = Ok [] ∧
  process_crm_data [["Name"; "Sales Price"; "Show on Mobile"];
                    ["PANEL"; "1500"; "No"]] = Ok [].
Proof. vm_compute. repeat split. Qed.

(** * Further properties *)

(** ** Letter case *)

Lemma upper_lower_char c : PyStr.upper_char (PyStr.lower_char c) = PyStr.upper_char c.
Proof. destruct c as [[] [] [] [] [] [] [] []]; reflexivity. Qed.

Lemma upper_upper_char c : PyStr.upper_char (PyStr.upper_char c) = PyStr.upper_char c.
Proof. destruct c as [[] [] [] [] [] [] [] []]; reflexivity. Qed.

Lemma lower_upper_char c : PyStr.lower_char (PyStr.upper_char c) = PyStr.lower_char c.
Proof. destruct c as [[] [] [] [] [] [] [] []]; reflexivity. Qed.

Lemma map_chars_compose f g h s :
  (∀ c, f (g c) = h c) →
  PyStr.map_chars f (PyStr.map_chars g s) = PyStr.map_chars h s.
Proof. intros H. induction s as [|c s IH]; simpl; [done|]. by rewrite H, IH. Qed.

(** X1: on ASCII names, where the case mappings of the model are those
    of Python, the Categorizer ignores letter case: a name, its
    lowercased form and its uppercased form get the same category.
    (Outside ASCII this fails in Python: the Kelvin sign lowercases to
    "k" and is no "K" for the rules.) *)
Theorem categorize_package_ignores_case (name : string) :
  PyStr.is_ascii name = true →
  categorize_package (PyStr.lower name) = categorize_package name ∧
  categorize_package (PyStr.upper name) = categorize_package name.
Proof.
  intros _. unfold categorize_package, PyStr.upper, PyStr.lower. split.
  - by rewrite (map_chars_compose _ _ PyStr.upper_char) by apply upper_lower_char.
  - by rewrite (map_chars_compose _ _ PyStr.upper_char) by apply upper_upper_char.
Qed.

Lemma categorize_package_ignores_case_witness :
  categorize_package (PyStr.lower "Breaker Swap") = categorize_package "Breaker Swap" ∧
  categorize_package (PyStr.upper "Breaker Swap") = categorize_package "Breaker Swap".
Proof.
  apply categorize_package_ignores_case. reflexivity.
Defined.

(** ** Range of the Categorizer *)

Lemma first_category_range rules name_upper :
  first_category rules name_upper ∈ rules.*2 ++ ["Other Services"].
Proof.
  induction rules as [|[p c] rules IH]; simpl; [by left|].
  destruct (search p name_upper); [by left|by right].
Qed.

(** X2: every name gets one of the nineteen categories of the rule table
    or "Other Services"; and the icon of the category of a name is the
    default "package" exactly when that category is "Other Services":
    each category of the rule table has an icon of its own table entry. *)
Theorem category_has_icon (name : string) :
  categorize_package name ∈ CATEGORY_PATTERNS.*2 ++ ["Other Services"] ∧
  (get_category_icon (categorize_package name) = "package" ↔
   categorize_package name = "Other Services").
Proof.
  pose proof (first_category_range CATEGORY_PATTERNS (PyStr.upper name)) as Hin.
  fold (categorize_package name) in Hin. split; [done|].
  revert Hin. generalize (categorize_package name). intros c Hin.
  simpl in Hin.
  repeat (apply elem_of_cons in Hin as [->|Hin]; [by split|]).
  by apply elem_of_nil in Hin.
Qed.

(** ** Reach of the first rule *)

Lemma contains_after_prefix l a s s' :
  PyStr.drop_prefix a s = Some s' →
  PyStr.contains l s' = true → PyStr.contains l s = true.
Proof.
  revert s. induction a as [|x a IH]; intros s Hd Hc; simpl in Hd.
  - by injection Hd as ->.
  - destruct s as [|y s]; [done|]. destruct (Ascii.eqb x y); [|done].
    apply contains_cons. by apply IH.
Qed.

Lemma contains_dotstar l s k :
  (∀ t, k t = true → PyStr.contains l t = true) →
  dotstar s k = true → PyStr.contains l s = true.
Proof.
  intros Hk. induction s as [|c s IH]; intros H; simpl in H.
  - rewrite orb_false_r in H. by apply Hk.
  - apply orb_true_iff in H as [H|H]; [by apply Hk|].
    destruct (Ascii.eqb c newline); [done|].
    apply (contains_cons l c s). by apply IH.
Qed.

Lemma startswith_contains l s :
  PyStr.startswith l s = true → PyStr.contains l s = true.
Proof. intros H. destruct s; simpl; by rewrite H. Qed.

Lemma search_contains r l :
  (∀ s k, matches r s k = true → PyStr.contains l s = true) →
  ∀ s, search r s = true → PyStr.contains l s = true.
Proof.
  intros Hr s. induction s as [|c s IH]; intros H; simpl in H.
  - rewrite orb_false_r in H. by apply Hr in H.
  - apply orb_true_iff in H as [H|H]; [by apply Hr in H|].
    apply (contains_cons l c s). by apply IH.
Qed.

(** A match of [a.*b] lies in a text containing [b]. *)
Lemma search_gap_contains a b s :
  search (Seq (Lit a) (Seq DotStar (Lit b))) s = true →
  PyStr.contains b s = true.
Proof.
  apply search_contains. clear s. intros s k H. simpl in H.
  destruct (PyStr.drop_prefix a s) as [s'|] eqn:Hd; [|done].
  apply (contains_after_prefix b a s s' Hd).
  eapply contains_dotstar; [|exact H].
  intros t Ht. apply startswith_contains. unfold PyStr.startswith.
  cbv beta in Ht. revert Ht. by destruct (PyStr.drop_prefix b t).
Qed.

Lemma search_first_rule s :
  search (Alt (Lit "PANEL")
            (Alt (Seq (Lit "SERVICE") (Seq DotStar (Lit "PANEL")))
                 (Lit "SUB PANEL"))) s
  = PyStr.contains "PANEL" s.
Proof.
  rewrite !search_alt, !search_lit.
  destruct (PyStr.contains "PANEL" s) eqn:Hp; [done|]. simpl.
  destruct (search _ s) eqn:Hgap.
  { apply search_gap_contains in Hgap. congruence. }
  destruct (PyStr.contains "SUB PANEL" s) eqn:Hsub; [|done].
  apply (contains_app_r "SUB " "PANEL") in Hsub. congruence.
Qed.

(** X3: a name is categorised "Panel Upgrades" exactly when its
    uppercased form contains "PANEL", whatever else it contains: the
    first rule shadows all later ones, and its alternatives
    [SERVICE.*PANEL] and [SUB PANEL] add nothing to [PANEL]. *)
Theorem panel_upgrades_iff (name : string) :
  categorize_package name = "Panel Upgrades" ↔
  PyStr.contains "PANEL" (PyStr.upper name) = true.
Proof.
  unfold categorize_package, CATEGORY_PATTERNS. cbn [first_category].
  rewrite search_first_rule.
  destruct (PyStr.contains "PANEL" (PyStr.upper name)); [done|].
  split; [|done].
  repeat (match goal with |- context [if ?b then _ else _] => destruct b end;
          [discriminate|]).
  discriminate.
Qed.

(** X4: "Bathrooms" is reached through "EXHAUST" alone: a name given
    that category contains "EXHAUST" and does not contain "FAN" (in
    uppercase), so the alternatives [BATH FAN] and [VENT FAN] of its rule
    never decide. *)
Theorem bathrooms_only_by_exhaust (name : string) :
  categorize_package name = "Bathrooms" →
  PyStr.contains "EXHAUST" (PyStr.upper name) = true ∧
  PyStr.contains "FAN" (PyStr.upper name) = false.
Proof.
  unfold categorize_package, CATEGORY_PATTERNS. cbn [first_category].
  do 11 (match goal with |- context [if ?b then _ else _] => destruct b end;
         [discriminate|]).
  rewrite !search_alt, !search_lit.
  destruct (PyStr.contains "FAN" (PyStr.upper name)) eqn:Hfan; [discriminate|].
  destruct (PyStr.contains "CEILING FAN" (PyStr.upper name)) eqn:Hc.
  { apply (contains_app_r "CEILING " "FAN") in Hc. congruence. }
  destruct (PyStr.contains "BATH FAN" (PyStr.upper name)) eqn:Hb.
  { apply (contains_app_r "BATH " "FAN") in Hb. congruence. }
  destruct (PyStr.contains "VENT FAN" (PyStr.upper name)) eqn:Hv.
  { apply (contains_app_r "VENT " "FAN") in Hv. congruence. }
  destruct (PyStr.contains "EXHAUST" (PyStr.upper name)); [done|]. simpl.
  repeat (match goal with |- context [if ?b then _ else _] => destruct b end;
          [discriminate|]).
  discriminate.
Qed.

Lemma bathrooms_only_by_exhaust_witness :
  PyStr.contains "EXHAUST" (PyStr.upper "Bath exhaust vent") = true ∧
  PyStr.contains "FAN" (PyStr.upper "Bath exhaust vent") = false.
Proof.
  apply bathrooms_only_by_exhaust. reflexivity.
Defined.

(** ** Cleaning helpers *)

Lemma clean_hours_unfold s :
  clean_hours (Text s) = from_option id (PyInt 0) (float s).
Proof. by destruct s. Qed.

Lemma remove_chars_idemp cls s :
  PyStr.remove_chars cls (PyStr.remove_chars cls s) = PyStr.remove_chars cls s.
Proof.
  induction s as [|c s IH]; simpl; [done|].
  destruct (cls c) eqn:Hc; [done|]. simpl. by rewrite Hc, IH.
Qed.

Lemma clean_price_unfold s :
  clean_price (Text s)
  = clean_hours (Text (PyStr.remove_chars is_comma_or_dollar s)).
Proof. rewrite clean_hours_unfold. by destruct s. Qed.

(** X5: [clean_price] is [clean_hours] applied to the text without its
    commas and dollar signs, wherever they stand; so two price texts that
    differ only in commas and dollar signs are cleaned to the same
    number, and a text made of them alone is cleaned to 0. *)
Theorem clean_price_ignores_separators (s : string) :
  clean_price (Text s)
  = clean_hours (Text (PyStr.remove_chars is_comma_or_dollar s)) ∧
  ∀ t, PyStr.remove_chars is_comma_or_dollar t
       = PyStr.remove_chars is_comma_or_dollar s →
       clean_price (Text t) = clean_price (Text s).
Proof.
  split; [apply clean_price_unfold|].
  intros t Ht. by rewrite !clean_price_unfold, Ht.
Qed.

Lemma clean_price_ignores_separators_witness :
  clean_price (Text "$1,2,00$") = clean_price (Text "1200").
Proof.
  apply (proj2 (clean_price_ignores_separators "1200")). reflexivity.
Defined.

Lemma float_is_float s x : float s = Some x → ∃ f, x = PyFloat f.
Proof.
  unfold float.
  destruct (if PyStr.contains "_" _ then _ else _) as [u|]; [|done].
  destruct (parse_inf_or_nan u) as [f|].
  - intros [= <-]. by eexists.
  - destruct (parse_decimal u) as [f|]; [|done]. intros [= <-]. by eexists.
Qed.

Lemma clean_hours_cases a :
  clean_hours a = PyInt 0 ∨ ∃ f, clean_hours a = PyFloat f.
Proof.
  destruct a as [s|]; [|by left]. rewrite clean_hours_unfold.
  destruct (float s) as [x|] eqn:Hx; [|by left].
  right. by apply float_is_float in Hx.
Qed.

Lemma clean_price_cases a :
  clean_price a = PyInt 0 ∨ ∃ f, clean_price a = PyFloat f.
Proof.
  destruct a as [s|]; [|by left].
  rewrite clean_price_unfold. apply clean_hours_cases.
Qed.

(** ** Emitted records *)

(** X6: what every record emitted for a row satisfies: its name is not
    blank, its price is a float (never the integer 0 of the cleaning
    fallback), its labor hours are the integer 0 or a float, its category
    is the Categorizer's for its raw name, its display name is derived
    from its raw name, and it has no tier and no upsells. *)
Theorem emitted_record_invariants (col_map : gmap string nat)
    (row : list string) (p : package) :
  process_row col_map row = Ok (Some p) →
  PyStr.strip (pkg_name p) ≠ "" ∧
  (∃ f, pkg_price p = PyFloat f) ∧
  (pkg_laborHours p = PyInt 0 ∨ ∃ f, pkg_laborHours p = PyFloat f) ∧
  pkg_category p = categorize_package (pkg_name p) ∧
  pkg_displayName p = display_name_of (pkg_name p) ∧
  pkg_tier p = None ∧
  pkg_upsellTo p = [].
Proof.
  intros Hp.
  destruct (decide (length row < max_index col_map + 1)%nat) as [Hlt|Hge].
  { by rewrite process_row_narrow in Hp. }
  rewrite process_row_wide in Hp by lia.
  destruct (is_empty (resolved_name col_map row)
            || is_empty (PyStr.strip (resolved_name col_map row))) eqn:Hname;
    [done|].
  destruct (negb _ && _); [done|].
  destruct (PyNum.leb _ _) eqn:Hprice; [done|].
  injection Hp as <-. simpl.
  apply orb_false_iff in Hname as [_ Hname%is_empty_false].
  repeat split; [done| |apply clean_hours_cases].
  destruct (clean_price_cases (resolved_price col_map row)) as [H0|Hf]; [|done].
  rewrite H0 in Hprice. discriminate Hprice.
Qed.

Lemma emitted_record_invariants_witness :
  ∃ f, PyFloat (S754_finite false 4503599627370496 (-50)) = PyFloat f.
Proof.
  refine (proj1 (proj2 (emitted_record_invariants
                   (build_col_map ["Name"; "Sales Price"]) ["PANEL"; "4"]
                   {| pkg_id := ""; pkg_name := "PANEL"; pkg_displayName := "PANEL";
                      pkg_price := PyFloat (S754_finite false 4503599627370496 (-50));
                      pkg_laborHours := PyInt 0; pkg_description := "";
                      pkg_category := "Panel Upgrades";
                      pkg_tier := None; pkg_upsellTo := [] |} _))).
  vm_compute. reflexivity.
Defined.

Lemma omap_length_le {A B} (f : A → option B) l :
  (length (omap f l) ≤ length l)%nat.
Proof.
  induction l as [|x l IH]; csimpl; [done|].
  destruct (f x); csimpl; lia.
Qed.

(** X7: rows are processed independently and in order: the records of a
    data sequence in two parts are the records of the first part followed
    by those of the second, under the same header; no input makes the
    Normalizer raise. *)
Theorem process_crm_data_app (row0 : list string) (data1 data2 : list (list string)) :
  ∃ packages1 packages2,
    process_crm_data (row0 :: data1) = Ok packages1 ∧
    process_crm_data (row0 :: data2) = Ok packages2 ∧
    process_crm_data (row0 :: data1 ++ data2) = Ok (packages1 ++ packages2) ∧
    (length packages1 ≤ length data1)%nat.
Proof.
  exists (omap (emitted (build_col_map row0)) data1),
         (omap (emitted (build_col_map row0)) data2).
  unfold process_crm_data. rewrite !process_rows_total.
  repeat split.
  - by rewrite omap_app.
  - apply omap_length_le.
Qed.

(** ** Header map *)

Lemma header_key_range h key :
  header_key h = Some key →
  key ∈ ["id"; "name"; "price"; "hours"; "labor_cost"; "description"; "show_mobile"].
Proof.
  unfold header_key.
  repeat match goal with |- context [if ?b then _ else _] => destruct b end;
    intros [= <-]; set_solver.
Qed.

Lemma max_list_bound (l : list nat) n :
  (∀ x, x ∈ l → (x < n)%nat) → (max_list l + 1 ≤ Nat.max 1 n)%nat.
Proof.
  induction l as [|x l IH]; intros H; simpl; [lia|].
  assert (x < n)%nat by (apply H; by left).
  assert (max_list l + 1 ≤ Nat.max 1 n)%nat
    by (apply IH; intros y Hy; apply H; by right).
  lia.
Qed.

Lemma build_col_map_index row0 key j :
  build_col_map row0 !! key = Some j →
  (j < length row0)%nat ∧
  ∃ h, map PyStr.strip row0 !! j = Some h ∧ header_key (PyStr.lower h) = Some key.
Proof.
  unfold build_col_map. intros [(k & h & -> & Hk & Hkey & _)|[Hm _]]%col_map_loop_lookup;
    [|by rewrite lookup_empty in Hm].
  simpl. split; [|by exists h].
  apply lookup_lt_Some in Hk. by rewrite length_map in Hk.
Qed.

Lemma max_index_within_header row0 :
  (max_index (build_col_map row0) + 1 ≤ Nat.max 1 (length row0))%nat.
Proof.
  apply max_list_bound. intros j ([key j'] & -> & Hin)%list_elem_of_fmap.
  apply elem_of_map_to_list in Hin. by apply build_col_map_index in Hin as [? _].
Qed.

(** X8: the header map binds only the seven keys of the [if]/[elif]
    chain, each to the index of a header cell; so the width that the
    Normalizer requires of a data row never exceeds the width of the
    header (or 1 for an empty header). *)
Theorem header_map_within_header (row0 : list string) :
  (∀ key j, build_col_map row0 !! key = Some j →
     key ∈ ["id"; "name"; "price"; "hours"; "labor_cost"; "description";
            "show_mobile"] ∧
     (j < length row0)%nat) ∧
  (max_index (build_col_map row0) + 1 ≤ Nat.max 1 (length row0))%nat.
Proof.
  split.
  - intros key j (Hj & h & _ & Hkey)%build_col_map_index.
    split; [by apply header_key_range in Hkey|done].
  - apply max_index_within_header.
Qed.

(** ** Stripping *)

Lemma lstrip_by_map sp f s :
  (∀ c, sp (f c) = sp c) →
  PyStr.lstrip_by sp (PyStr.map_chars f s)
  = PyStr.map_chars f (PyStr.lstrip_by sp s).
Proof.
  intros H. induction s as [|c s IH]; simpl; [done|].
  rewrite H. by destruct (sp c).
Qed.

Lemma rstrip_by_map sp f s :
  (∀ c, sp (f c) = sp c) →
  PyStr.rstrip_by sp (PyStr.map_chars f s)
  = PyStr.map_chars f (PyStr.rstrip_by sp s).
Proof.
  intros H. induction s as [|c s IH]; simpl; [done|].
  rewrite IH, H. destruct (PyStr.rstrip_by sp s); simpl; [|done].
  by destruct (sp c).
Qed.

Lemma strip_by_map sp f s :
  (∀ c, sp (f c) = sp c) →
  PyStr.strip_by sp (PyStr.map_chars f s)
  = PyStr.map_chars f (PyStr.strip_by sp s).
Proof.
  intros H. unfold PyStr.strip_by. by rewrite lstrip_by_map, rstrip_by_map.
Qed.

Lemma rstrip_by_idemp sp s :
  PyStr.rstrip_by sp (PyStr.rstrip_by sp s) = PyStr.rstrip_by sp s.
Proof.
  induction s as [|c s IH]; simpl; [done|].
  destruct (PyStr.rstrip_by sp s) as [|d r] eqn:Hr.
  - destruct (sp c) eqn:Hc; simpl; [done|]. by rewrite Hc.
  - simpl in *. by rewrite IH.
Qed.

(** Stripping the right end keeps a first character that is not blank. *)
Lemma lstrip_rstrip sp s :
  PyStr.lstrip_by sp s = s →
  PyStr.lstrip_by sp (PyStr.rstrip_by sp s) = PyStr.rstrip_by sp s.
Proof.
  destruct s as [|c s]; [done|]. simpl.
  destruct (sp c) eqn:Hc.
  - intros Hs. exfalso.
    assert (∀ t, String.length (PyStr.lstrip_by sp t) ≤ String.length t)%nat as Hlen.
    { clear. induction t as [|d t IH]; simpl; [done|].
      destruct (sp d); simpl; lia. }
    specialize (Hlen s). rewrite Hs in Hlen. simpl in Hlen. lia.
  - intros _. destruct (PyStr.rstrip_by sp s); simpl; by rewrite Hc.
Qed.

Lemma lstrip_by_idemp sp s :
  PyStr.lstrip_by sp (PyStr.lstrip_by sp s) = PyStr.lstrip_by sp s.
Proof.
  induction s as [|c s IH]; simpl; [done|].
  destruct (sp c) eqn:Hc; [done|]. simpl. by rewrite Hc.
Qed.

Lemma strip_by_idemp sp s :
  PyStr.strip_by sp (PyStr.strip_by sp s) = PyStr.strip_by sp s.
Proof.
  unfold PyStr.strip_by.
  rewrite (lstrip_rstrip sp (PyStr.lstrip_by sp s)) by apply lstrip_by_idemp.
  apply rstrip_by_idemp.
Qed.

Lemma isspace_upper c : PyStr.isspace (PyStr.upper_char c) = PyStr.isspace c.
Proof. destruct c as [[] [] [] [] [] [] [] []]; reflexivity. Qed.

Lemma isspace_lower c : PyStr.isspace (PyStr.lower_char c) = PyStr.isspace c.
Proof. destruct c as [[] [] [] [] [] [] [] []]; reflexivity. Qed.

Lemma lower_lower_char c : PyStr.lower_char (PyStr.lower_char c) = PyStr.lower_char c.
Proof. destruct c as [[] [] [] [] [] [] [] []]; reflexivity. Qed.

(** The loop reads the header cells through [lower] alone. *)
Lemma col_map_loop_ext i header header' col_map :
  map PyStr.lower header = map PyStr.lower header' →
  col_map_loop i header col_map = col_map_loop i header' col_map.
Proof.
  revert i header' col_map.
  induction header as [|h header IH]; intros i [|h' header'] col_map Heq;
    try done.
  simpl in *. injection Heq as Hh Heq. rewrite Hh. by apply IH.
Qed.

(** X9: the Header Resolver ignores surrounding white space, and on
    ASCII headers, where the case mappings of the model are those of
    Python, it ignores letter case: a header and the same header with
    every cell already stripped resolve the same columns; so do an ASCII
    header and the same header in upper or in lower case.  (Outside ASCII
    the latter fails in Python: a long s uppercases to "S".) *)
Theorem build_col_map_ignores_case_and_padding (row0 : list string) :
  build_col_map (map PyStr.strip row0) = build_col_map row0 ∧
  (Forall (fun h => PyStr.is_ascii h = true) row0 →
   build_col_map (map PyStr.upper row0) = build_col_map row0 ∧
   build_col_map (map PyStr.lower row0) = build_col_map row0).
Proof.
  unfold build_col_map. split; [|intros _; split]; apply col_map_loop_ext;
    rewrite !map_map; apply map_ext; intros h.
  - unfold PyStr.strip. by rewrite strip_by_idemp.
  - unfold PyStr.strip, PyStr.upper, PyStr.lower.
    rewrite strip_by_map by apply isspace_upper.
    apply map_chars_compose, lower_upper_char.
  - unfold PyStr.strip, PyStr.lower.
    rewrite strip_by_map by apply isspace_lower.
    apply map_chars_compose, lower_lower_char.
Qed.

Lemma build_col_map_ignores_case_and_padding_witness :
  build_col_map (map PyStr.upper [" Name"; "Sales Price "])
  = build_col_map [" Name"; "Sales Price "] ∧
  build_col_map (map PyStr.lower [" Name"; "Sales Price "])
  = build_col_map [" Name"; "Sales Price "].
Proof.
  apply (proj2 (build_col_map_ignores_case_and_padding [" Name"; "Sales Price "])).
  repeat constructor.
Defined.

Lemma drop_prefix_app_same p s : PyStr.drop_prefix p (p ++ s)%string = Some s.
Proof.
  induction p as [|c p IH]; [done|].
  change (PyStr.drop_prefix (String c p) (String c (p ++ s)%string) = Some s).
  simpl. by rewrite Ascii.eqb_refl.
Qed.

(** X10: a display name has no leading or trailing white space, and the
    two vendor prefixes are removed alike: "AMSFL_" and "GENFL_" in front
    of the same text give the same display name. *)
Theorem display_name_stripped (name : string) :
  PyStr.strip (display_name_of name) = display_name_of name ∧
  display_name_of ("AMSFL_" ++ name)%string
  = display_name_of ("GENFL_" ++ name)%string.
Proof.
  split.
  - unfold display_name_of, PyStr.strip. apply strip_by_idemp.
  - unfold display_name_of, strip_vendor_prefix.
    rewrite (drop_prefix_app_same "AMSFL_" name).
    rewrite (drop_prefix_app_same "GENFL_" name).
    reflexivity.
Qed.

(** ** Grouping keeps every package *)

Lemma concat_map_perm_outer {A B} (f : A → list B) l l' :
  l ≡ₚ l' → concat (map f l) ≡ₚ concat (map f l').
Proof.
  induction 1 as [|x l l' _ IH|x y l|l l' l'' _ IH1 _ IH2]; simpl.
  - done.
  - by rewrite IH.
  - rewrite !app_assoc. f_equiv. apply Permutation_app_comm.
  - by rewrite IH1.
Qed.

Lemma concat_map_perm_inner {A B} (f g : A → list B) l :
  (∀ x, f x ≡ₚ g x) → concat (map f l) ≡ₚ concat (map g l).
Proof.
  intros H. induction l as [|x l IH]; simpl; [done|]. by rewrite H, IH.
Qed.

Lemma add_package_entries categories p :
  concat (map (fun it => cd_packages it.2) (map_to_list (add_package categories p)))
  ≡ₚ concat (map (fun it => cd_packages it.2) (map_to_list categories)) ++ [p].
Proof.
  unfold add_package.
  destruct (categories !! pkg_category p) as [d|] eqn:Hd; simpl.
  - rewrite <- insert_delete_eq.
    rewrite (concat_map_perm_outer _ _ _
               (map_to_list_insert _ _ _ (lookup_delete_eq _ _))).
    rewrite <- (concat_map_perm_outer _ _ _
                  (map_to_list_delete _ _ _ Hd)).
    simpl. rewrite <- !app_assoc. f_equiv. apply Permutation_app_comm.
  - rewrite (concat_map_perm_outer _ _ _ (map_to_list_insert _ _ _ Hd)).
    simpl. apply Permutation_cons_append.
Qed.

Lemma fold_add_package_entries packages categories :
  concat (map (fun it => cd_packages it.2)
            (map_to_list (fold_left add_package packages categories)))
  ≡ₚ concat (map (fun it => cd_packages it.2) (map_to_list categories))
     ++ packages.
Proof.
  revert categories. induction packages as [|p packages IH]; intros categories;
    simpl.
  - by rewrite app_nil_r.
  - rewrite IH, add_package_entries. by rewrite <- app_assoc.
Qed.

(** X11: whatever the prices, the groups partition the packages: taken
    together the groups hold exactly the packages given, each as often as
    given; no two groups share a name; no group is empty; and every
    package of a group has the group's name as category. *)
Theorem organize_by_category_partition (packages : list package) :
  concat (map cg_packages (organize_by_category packages)) ≡ₚ packages ∧
  NoDup (map cg_name (organize_by_category packages)) ∧
  ∀ g, g ∈ organize_by_category packages →
       cg_packages g ≠ [] ∧
       ∀ p, p ∈ cg_packages g → pkg_category p = cg_name g.
Proof.
  split; [|split].
  - unfold organize_by_category, groups_of_items. rewrite map_map.
    rewrite (concat_map_perm_outer _ _ _ (py_sort_perm item_lt _)).
    rewrite (concat_map_perm_inner _ (fun it => cd_packages it.2)).
    + unfold group_packages. rewrite fold_add_package_entries.
      by rewrite map_to_list_empty.
    + intros [c d]. simpl. apply py_sort_perm.
  - unfold organize_by_category, groups_of_items. rewrite map_map.
    rewrite (map_ext _ fst) by (by intros [c d]).
    change (map fst ?l) with (l.*1).
    rewrite py_sort_perm. apply NoDup_fst_map_to_list.
  - intros g (c & d & Hd & ->)%organize_group_inv. simpl.
    apply group_packages_lookup in Hd as (Hpk & _ & Hne). rewrite Hpk. split.
    + intros Hnil. apply Hne.
      apply Permutation_nil_r. rewrite <- Hnil. symmetry. apply py_sort_perm.
    + intros p Hp. rewrite py_sort_perm in Hp.
      by apply list_elem_of_filter in Hp as [Hp _].
Qed.

(** ** Starting price in the presence of NaN *)

Lemma ltb_nan_l a b : is_nan a = true → PyNum.ltb a b = false.
Proof.
  unfold is_nan, PyNum.ltb, PyNum.compare. by destruct (value a).
Qed.

(** The running minimum passes over prices that are NaN. *)
Lemma running_min_skips_nan init l :
  running_min init l
  = running_min init (filter (fun p => is_nan (pkg_price p) = false) l).
Proof.
  revert init. induction l as [|p l IH]; intros init; [done|].
  rewrite filter_cons.
  destruct (decide (is_nan (pkg_price p) = false)) as [Hp|Hp].
  - unfold running_min. simpl. apply IH.
  - apply not_false_is_true in Hp.
    unfold running_min. simpl. rewrite (ltb_nan_l _ init Hp). apply IH.
Qed.

(** X12: whatever the prices, the starting price of a group is never
    NaN; it is at or below every price of the group that is a number;
    and it is the price of a package of the group unless it is still the
    infinity the loop starts from. *)
Theorem starting_price_bounds (packages : list package) (g : category_group) :
  g ∈ organize_by_category packages →
  is_nan (cg_startingAt g) = false ∧
  (∀ q, q ∈ cg_packages g → is_nan (pkg_price q) = false →
        PyNum.leb (cg_startingAt g) (pkg_price q) = true) ∧
  (cg_startingAt g = PyNum.inf ∨
   ∃ p, p ∈ cg_packages g ∧ cg_startingAt g = pkg_price p).
Proof.
  intros (c & d & Hd & ->)%organize_group_inv. simpl.
  apply group_packages_lookup in Hd as (-> & -> & _).
  set (members := in_category c packages).
  set (priced_members := filter (fun p => is_nan (pkg_price p) = false) members).
  assert (Forall has_price priced_members) as Hall.
  { apply Forall_forall. by intros p [Hp _]%list_elem_of_filter. }
  rewrite running_min_skips_nan. fold priced_members.
  split; [by apply running_min_not_nan|]. split.
  - intros q Hq Hnum. rewrite py_sort_perm in Hq.
    apply not_after_leb; [by apply running_min_not_nan|done|].
    apply running_min_lower_bound; [done..|].
    by apply list_elem_of_filter.
  - destruct (running_min_cases PyNum.inf priced_members) as [->|(p & Hp & ->)];
      [by left|].
    right. exists p. split; [|done]. rewrite py_sort_perm.
    by apply list_elem_of_filter in Hp as [_ Hp].
Qed.

Lemma starting_price_bounds_witness :
  ∃ g, g ∈ organize_by_category sample_packages ∧
       is_nan (cg_startingAt g) = false.
Proof.
  eexists. split.
  - vm_compute. left.
  - refine (proj1 (starting_price_bounds sample_packages _ _)).
    vm_compute. left.
Defined.

(** ** Rows read from spreadsheet markup *)

(** X13: when the parser returns, some element of the document has a tag
    containing "Table", and none of the rows returned is empty. *)
Theorem parse_xml_rows_nonempty (root : element) (rows : list (list string)) :
  parse_xml_spreadsheet root = Ok rows →
  (∃ e, e ∈ iter root ∧ PyStr.contains "Table" (tag e) = true) ∧
  ∀ r, r ∈ rows → r ≠ [].
Proof.
  intros Hok. split.
  - destruct (scan_for "Table" root) as [e|] eqn:Hscan.
    + apply find_first_Some in Hscan. by exists e.
    + assert (parse_xml_spreadsheet root
              = Raise (ValueError "Could not find Table element in XML")) as Hr.
      { apply parse_xml_spreadsheet_raises. by apply find_first_None. }
      congruence.
  - revert Hok. unfold parse_xml_spreadsheet.
    repeat case_match; try done; intros [= <-] r;
      unfold table_rows; by intros [? _]%list_elem_of_filter.
Qed.

Lemma parse_xml_rows_nonempty_witness :
  ∃ e,
    e ∈ iter (Element "Workbook" None
                [Element "Table" None
                   [Element "Row" None
                      [Element "Cell" None [Element "Data" (Some "a") []];
                       Element "Cell" None []];
                    Element "Row" None []]]) ∧
    PyStr.contains "Table" (tag e) = true.
Proof.
  refine (proj1 (parse_xml_rows_nonempty _ [["a"; ""]] _)).
  reflexivity.
Defined.

Lemma cell_text_xml_cell c : cell_text (xml_cell c) = c.
Proof. reflexivity. Qed.

Lemma cells_of_xml_cells cells :
  map cell_text
      (filter (fun c => PyStr.contains "Cell" (tag c) = true)
              (flat_map iter (map xml_cell cells)))
  = cells.
Proof.
  induction cells as [|c cells IH]; [done|].
  change (flat_map iter (map xml_cell (c :: cells)))
    with (xml_cell c :: Element (qualified ss_ns "Data") (Some c) []
          :: flat_map iter (map xml_cell cells)).
  rewrite (filter_cons_True _ (xml_cell c)) by reflexivity.
  rewrite (filter_cons_False _ (Element _ _ _)) by (vm_compute; discriminate).
  change (map cell_text (xml_cell c :: ?l)) with (c :: map cell_text l).
  by rewrite IH.
Qed.

Lemma row_cells_xml_row cells : row_cells (xml_row cells) = cells.
Proof.
  unfold row_cells.
  change (iter (xml_row cells))
    with (xml_row cells :: flat_map iter (map xml_cell cells)).
  rewrite (filter_cons_False _ (xml_row cells)) by (vm_compute; discriminate).
  apply cells_of_xml_cells.
Qed.

Lemma no_row_among_cells cells :
  filter (fun r => PyStr.contains "Row" (tag r) = true)
         (flat_map iter (map xml_cell cells)) = [].
Proof.
  induction cells as [|c cells IH]; [done|].
  change (flat_map iter (map xml_cell (c :: cells)))
    with (xml_cell c :: Element (qualified ss_ns "Data") (Some c) []
          :: flat_map iter (map xml_cell cells)).
  rewrite (filter_cons_False _ (xml_cell c)) by (vm_compute; discriminate).
  by rewrite (filter_cons_False _ (Element _ _ _)) by (vm_compute; discriminate).
Qed.

Lemma rows_of_xml_rows rows :
  filter (fun r => PyStr.contains "Row" (tag r) = true)
         (flat_map iter (map xml_row rows))
  = map xml_row rows.
Proof.
  induction rows as [|r rows IH]; [done|].
  change (flat_map iter (map xml_row (r :: rows)))
    with ((xml_row r :: flat_map iter (map xml_cell r))
          ++ flat_map iter (map xml_row rows)).
  rewrite filter_app, IH.
  rewrite (filter_cons_True _ (xml_row r)) by reflexivity.
  by rewrite no_row_among_cells.
Qed.

Lemma parse_xml_workbook (rows : list (list string)) :
  parse_xml_spreadsheet (xml_workbook rows) = Ok (filter (fun r => r ≠ []) rows).
Proof.
  unfold parse_xml_spreadsheet.
  assert (find_descendant "Worksheet" (xml_workbook rows)
          = Some (Element (qualified ss_ns "Worksheet") None [xml_table rows]))
    as -> by reflexivity.
  assert (find_descendant "Table"
            (Element (qualified ss_ns "Worksheet") None [xml_table rows])
          = Some (xml_table rows)) as -> by reflexivity.
  f_equal. unfold table_rows.
  change (iter (xml_table rows))
    with (xml_table rows :: flat_map iter (map xml_row rows)).
  rewrite (filter_cons_False _ (xml_table rows)) by (vm_compute; discriminate).
  rewrite rows_of_xml_rows, map_map.
  f_equal. rewrite <- (map_id rows) at 2. apply map_ext, row_cells_xml_row.
Qed.

(** X14: the parser reads a plain SpreadsheetML document back: from the
    document holding [rows] it returns those rows, cell for cell and in
    order, without the rows that have no cell. *)
Theorem parse_xml_spreadsheet_reads_back (rows : list (list string)) :
  parse_xml_spreadsheet (xml_workbook rows) = Ok (filter (fun r => r ≠ []) rows).
Proof. apply parse_xml_workbook. Qed.

(** ** Rows without cells *)

Lemma emitted_empty_row col_map : emitted col_map [] = None.
Proof.
  unfold emitted. rewrite process_row_narrow; [done|]. simpl. lia.
Qed.

Lemma omap_emitted_nonempty col_map (data : list (list string)) :
  omap (emitted col_map) (filter (fun r => r ≠ []) data)
  = omap (emitted col_map) data.
Proof.
  induction data as [|r data IH]; [done|].
  rewrite filter_cons. destruct (decide (r ≠ [])) as [Hr|Hr]; csimpl.
  - by rewrite IH.
  - apply dec_stable in Hr. subst r. by rewrite emitted_empty_row.
Qed.

(** X15: the two formats agree: for a header with at least one cell, the
    rows read back from the SpreadsheetML document holding a header and
    data rows give the same price book as those rows handed over as they
    are (as the CSV reader does); the rows without cells that the markup
    parser drops are rows the Normalizer skips. *)
Theorem spreadsheet_and_csv_agree (row0 : list string) (data : list (list string)) :
  row0 ≠ [] →
  (rows ←! parse_xml_spreadsheet (xml_workbook (row0 :: data)); pipeline rows)
  = pipeline (row0 :: data).
Proof.
  intros Hrow0.
  rewrite parse_xml_workbook. cbn [bind]. rewrite filter_cons_True by done.
  unfold pipeline, process_crm_data.
  by rewrite !process_rows_total, omap_emitted_nonempty.
Qed.

Lemma spreadsheet_and_csv_agree_witness :
  (rows ←! parse_xml_spreadsheet (xml_workbook sample_rows); pipeline rows)
  = pipeline sample_rows.
Proof.
  apply (spreadsheet_and_csv_agree ["Name"; "Sales Price"]
           [["SURGE"; "50"]; ["PANEL"; "100"]]).
  discriminate.
Defined.

(** ** Outcomes of [main] *)


(** X17: usage errors: without an argument and without any of the four
    default files, and likewise with an argument naming a file that does
    not exist, [main] exits with status 1, reads nothing and leaves the
    output file as it was. *)
Theorem main_usage_errors (fs : files) (argv1 : option string)
    (out : option output_file) :
  match argv1 with
  | None => ∀ p, p ∈ search_paths → file_exists fs p = false
  | Some p => file_exists fs p = false
  end →
  main fs argv1 out = (Raise (SystemExit 1), out).
Proof.
  intros H. unfold main, choose_path. destruct argv1 as [p|]; cbn [bind].
  - by rewrite H.
  - apply find_first_None in H. by rewrite H.
Qed.

Lemma main_usage_errors_witness :
  main {| file_exists := fun _ => false;
          file_start := fun _ => "";
          et_parse := fun _ => Raise ParseError;
          csv_reader := fun _ => Ok [];
          write_fails := None |} None None
  = (Raise (SystemExit 1), None).
Proof.
  apply main_usage_errors. intros p _. reflexivity.
Defined.

(** ** Reach of the rules *)

(** X18: every category of the rule table is assigned to some name, so
    no rule is dead as a whole (unlike the two fan alternatives of the
    Bathrooms rule). *)
Theorem every_category_is_reachable (category : string) :
  category ∈ CATEGORY_PATTERNS.*2 → ∃ name, categorize_package name = category.
Proof.
  simpl. intros H.
  repeat (apply elem_of_cons in H as [->|H];
          [first
             [ by exists "PANEL" | by exists "SURGE" | by exists "EV CHARGER"
             | by exists "HOT TUB" | by exists "240V CKT" | by exists "WP OUTLET"
             | by exists "FLOOD" | by exists "WAFER" | by exists "TAPE LT"
             | by exists "SWITCH" | by exists "PENDANT" | by exists "FAN"
             | by exists "EXHAUST" | by exists "GENERATOR" | by exists "INTERLOCK"
             | by exists "A/C" | by exists "SMOKE" | by exists "GFCI"
             | by exists "BREAKER" ]|]).
  by apply elem_of_nil in H.
Qed.

Lemma every_category_is_reachable_witness :
  ∃ name, categorize_package name = "Bathrooms".
Proof.
  apply every_category_is_reachable. simpl.
  do 12 right. left.
Defined.

(** ** Rows as wide as the header *)

(** X19: a data row with at least one cell and at least as many cells as
    the header is never dropped for its width: if it yields no record,
    then its name is blank, or its mobile flag contains "no", or its
    cleaned price is at or below 0. *)
Theorem full_width_row_dropped_for_its_fields (row0 row : list string) :
  (length row0 ≤ length row)%nat → row ≠ [] →
  process_row (build_col_map row0) row = Ok None →
  PyStr.strip (resolved_name (build_col_map row0) row) = "" ∨
  PyStr.contains "no"
    (PyStr.lower (resolved_show_mobile (build_col_map row0) row)) = true ∨
  PyNum.leb (clean_price (resolved_price (build_col_map row0) row)) (PyInt 0) = true.
Proof.
  intros Hlen Hrow.
  assert (max_index (build_col_map row0) + 1 ≤ length row)%nat as Hwide.
  { pose proof (max_index_within_header row0).
    destruct row; [done|]. simpl in *. lia. }
  rewrite process_row_wide by done.
  generalize (build_col_map row0). intros cm.
  destruct (is_empty (resolved_name cm row)) eqn:Hn; simpl.
  { apply is_empty_true in Hn. rewrite Hn. by left. }
  destruct (is_empty (PyStr.strip (resolved_name cm row))) eqn:Hs; simpl.
  { apply is_empty_true in Hs. by left. }
  destruct (PyStr.contains "no" _) eqn:Hno; [by right; left|].
  rewrite andb_false_r.
  destruct (PyNum.leb _ _); [by right; right|done].
Qed.

Lemma full_width_row_dropped_for_its_fields_witness :
  PyStr.strip (resolved_name (build_col_map ["Name"; "Sales Price"]) ["PANEL"; "0"]) = "" ∨
  PyStr.contains "no"
    (PyStr.lower (resolved_show_mobile (build_col_map ["Name"; "Sales Price"])
                    ["PANEL"; "0"])) = true ∨
  PyNum.leb (clean_price (resolved_price (build_col_map ["Name"; "Sales Price"])
                            ["PANEL"; "0"])) (PyInt 0) = true.
Proof.
  apply full_width_row_dropped_for_its_fields.
  - simpl. lia.
  - discriminate.
  - reflexivity.
Defined.

(** ** Headers without a name or a price column *)

(** X20: when the header resolves no name column, or no price column,
    the whole input yields no record, whatever its data rows hold. *)
Theorem no_packages_without_name_or_price (row0 : list string)
    (data : list (list string)) :
  build_col_map row0 !! "name" = None ∨ build_col_map row0 !! "price" = None →
  process_crm_data (row0 :: data) = Ok [].
Proof.
  intros H. unfold process_crm_data. rewrite process_rows_total. f_equal.
  induction data as [|row data IH]; [done|]. csimpl.
  assert (emitted (build_col_map row0) row = None) as ->; [|done].
  unfold emitted.
  destruct (decide (length row < max_index (build_col_map row0) + 1)%nat)
    as [Hlt|Hge].
  { by rewrite process_row_narrow. }
  rewrite process_row_wide by lia.
  unfold resolved_name, resolved_price, resolved.
  destruct H as [-> | ->]; simpl; [done|].
  by repeat match goal with |- context [if ?b then _ else _] => destruct b end.
Qed.

Lemma no_packages_without_name_or_price_witness :
  process_crm_data [["Item Name"; "Sales Price"]; ["PANEL"; "100"]] = Ok [].
Proof.
  apply no_packages_without_name_or_price. left. reflexivity.
Defined.

(** ** Size of the price book *)

Lemma emitted_category col_map row p :
  emitted col_map row = Some p →
  pkg_category p = categorize_package (pkg_name p).
Proof.
  unfold emitted.
  destruct (decide (length row < max_index col_map + 1)%nat) as [Hlt|Hge].
  { by rewrite process_row_narrow. }
  rewrite process_row_wide by lia.
  repeat match goal with |- context [if ?b then _ else _] => destruct b end;
    try done.
  by intros [= <-].
Qed.

Lemma NoDup_within_length (l k : list string) :
  NoDup l → (∀ x, x ∈ l → x ∈ k) → (length l ≤ length k)%nat.
Proof.
  intros Hnd Hsub. apply submseteq_length, NoDup_submseteq; done.
Qed.

(** X21: the price book of any input has at most twenty category
    groups, each named after a category of the rule table or "Other
    Services". *)
Theorem price_book_at_most_twenty_groups (rows : list (list string)) (d : document) :
  pipeline rows = Ok d →
  (length (doc_categories d) ≤ 20)%nat ∧
  ∀ g, g ∈ doc_categories d →
       cg_name g ∈ CATEGORY_PATTERNS.*2 ++ ["Other Services"].
Proof.
  unfold pipeline. intros Hd.
  assert (∃ packages,
            d = build_document (organize_by_category packages) ∧
            ∀ p, p ∈ packages → pkg_category p = categorize_package (pkg_name p))
    as (packages & -> & Hcat).
  { destruct rows as [|row0 data]; simpl in Hd.
    - injection Hd as <-. exists []. split; [done|].
      intros p Hp. by apply elem_of_nil in Hp.
    - rewrite process_rows_total in Hd. simpl in Hd. injection Hd as <-.
      eexists. split; [done|].
      intros p (row & _ & Hp)%list_elem_of_omap. by apply emitted_category in Hp. }
  simpl.
  assert (∀ g, g ∈ organize_by_category packages →
               cg_name g ∈ CATEGORY_PATTERNS.*2 ++ ["Other Services"]) as Hnames.
  { intros g (c & dat & Hdat & ->)%organize_group_inv. simpl.
    apply group_packages_lookup in Hdat as (_ & _ & Hne).
    destruct (in_category c packages) as [|p members] eqn:Hm; [done|].
    assert (p ∈ in_category c packages) as Hp by (rewrite Hm; by left).
    apply list_elem_of_filter in Hp as [<- Hp].
    rewrite (Hcat p Hp). apply first_category_range. }
  split; [|done].
  rewrite <- (length_map cg_name).
  change 20%nat with (length (CATEGORY_PATTERNS.*2 ++ ["Other Services"])).
  apply NoDup_within_length.
  - unfold organize_by_category, groups_of_items. rewrite map_map.
    rewrite (map_ext _ fst) by (by intros [c dat]).
    change (map fst ?l) with (l.*1).
    rewrite py_sort_perm. apply NoDup_fst_map_to_list.
  - intros x (g & -> & Hg)%list_elem_of_fmap. by apply Hnames.
Qed.

Lemma price_book_at_most_twenty_groups_witness :
  (length (organize_by_category sample_packages) ≤ 20)%nat.
Proof.
  refine (proj1 (price_book_at_most_twenty_groups sample_rows
                   (build_document (organize_by_category sample_packages)) _)).
  vm_compute. reflexivity.
Defined.
